(** * hackersvc: the endpoint composition layer of ctfsys/backend

    A shallow embedding of the Go packages [hackerservice],
    [hackerendpoint] and [hackertransport], and the properties their
    specification states about them.

    Go values are modelled as follows.
    - An [error] is an interface value: [None] is [nil], [Some e] a pointer
      to an error object, with its address and its message.  The operator
      [==] on two such values tells whether they are the same object.
    - [interface{}] values are the inductive [iface]; a failed type
      assertion panics.
    - Mutable state (clock, allocator, limiter, breaker, tracer, logger,
      histogram) is one record [World], threaded by the monad [M], which
      also carries panics. *)

From Stdlib Require Import ZArith QArith List String Ascii Bool Lia PeanoNat.
Import ListNotations.
Open Scope string_scope.
Open Scope Z_scope.

(** ** Go errors *)

Module errors.

(** A pointer to an [errors.errorString]: the address it lives at and the
    text it holds. *)
Record GoError : Type := mkError { err_addr : positive; err_msg : string }.

(** The interface type [error]; [None] is [nil]. *)
Definition error : Type := option GoError.

(** The method [Error()]. *)
Definition Error (e : GoError) : string := err_msg e.

Definition GoError_eq_dec (a b : GoError) : {a = b} + {a <> b}.
Proof.
  decide equality; [apply string_dec | apply Pos.eq_dec].
Defined.

(** [a == b] on two values of type [error]. *)
Definition error_eqb (a b : error) : bool :=
  match a, b with
  | None, None => true
  | Some x, Some y => if GoError_eq_dec x y then true else false
  | _, _ => false
  end.

Definition is_nil (a : error) : bool :=
  match a with None => true | Some _ => false end.

End errors.
Export errors.

(** ** Dynamic values *)

(** hackerendpoint.PingResponse *)
Record PingResponse : Type := mkPingResponse { P : string; Err : error }.

(** pb.PingReply (gRPC) and hackerthrift.PingReply (Thrift): generated
    structs, a payload and an error string. *)
Record pb_PingReply : Type := mkPbReply { pb_P : string; pb_Err : string }.
Record thrift_PingReply : Type :=
  mkThriftReply { Value : string; thrift_Err : string }.

(** The values an [interface{}] of this program can hold. *)
Inductive iface : Type :=
| INil
| IPingRequest                          (* hackerendpoint.PingRequest{} *)
| IPingResponse (r : PingResponse)      (* hackerendpoint.PingResponse *)
| IPbPingRequest                        (* *pb.PingRequest *)
| IPbPingReply (r : pb_PingReply)       (* *pb.PingReply *)
| IOther (tag : nat).                   (* a value of any other type *)

(** context.Context: only the span it carries matters here. *)
Record Context : Type := mkContext { ctx_span : option string }.
Definition Background : Context := mkContext None.

(** ** State *)

(** golang.org/x/time/rate token bucket, in units of one nanosecond of
    refill. *)
Record Limiter : Type := mkLimiter { lim_tokens : Z; lim_last : Z }.

(** gobreaker states. *)
Inductive State : Type := StateClosed | StateHalfOpen | StateOpen.

Record CircuitBreaker : Type := mkBreaker {
  cb_state    : State;
  cb_failures : nat;     (* consecutive failures while closed *)
  cb_requests : nat;     (* calls admitted while half-open *)
  cb_expiry   : Z        (* end of the open period *)
}.

Record Span : Type := mkSpan { span_op : string; span_err : error }.

(** go-kit's log.Logger and metrics.Histogram carry the key/value pairs
    given to them by [With]; the records they emit carry them too. *)
Definition keyvals : Type := list (string * string).

Record LogRecord : Type := mkLog { log_keyvals : keyvals; log_err : error }.

Record Observation : Type := mkObs { obs_labels : keyvals; obs_value : Z }.

Record World : Type := mkWorld {
  now     : Z;                 (* time.Now(), nanoseconds *)
  heap    : positive;          (* next address errors.New hands out *)
  limiter : Limiter;
  breaker : CircuitBreaker;
  spans   : list Span;         (* spans the tracer has finished *)
  ep_log  : list LogRecord;    (* sink of the endpoint logger *)
  ep_hist : list Observation;  (* the duration histogram *)
  calls   : nat                (* invocations of the counted endpoint *)
}.

Definition set_heap (h : positive) (w : World) : World :=
  mkWorld (now w) h (limiter w) (breaker w) (spans w) (ep_log w) (ep_hist w) (calls w).
Definition set_limiter (l : Limiter) (w : World) : World :=
  mkWorld (now w) (heap w) l (breaker w) (spans w) (ep_log w) (ep_hist w) (calls w).
Definition set_breaker (b : CircuitBreaker) (w : World) : World :=
  mkWorld (now w) (heap w) (limiter w) b (spans w) (ep_log w) (ep_hist w) (calls w).
Definition add_span (s : Span) (w : World) : World :=
  mkWorld (now w) (heap w) (limiter w) (breaker w) (spans w ++ [s]) (ep_log w) (ep_hist w) (calls w).
Definition add_log (r : LogRecord) (w : World) : World :=
  mkWorld (now w) (heap w) (limiter w) (breaker w) (spans w) (ep_log w ++ [r]) (ep_hist w) (calls w).
Definition add_obs (o : Observation) (w : World) : World :=
  mkWorld (now w) (heap w) (limiter w) (breaker w) (spans w) (ep_log w) (ep_hist w ++ [o]) (calls w).
Definition incr_calls (w : World) : World :=
  mkWorld (now w) (heap w) (limiter w) (breaker w) (spans w) (ep_log w) (ep_hist w) (S (calls w)).

(** ** The monad of Go computations: state and panics *)

Inductive outcome (A : Type) : Type :=
| Ret (a : A)
| Panic (reason : string).
Arguments Ret {A} a.
Arguments Panic {A} reason.

Definition M (A : Type) : Type := World -> outcome A * World.

Definition ret {A} (a : A) : M A := fun w => (Ret a, w).

Definition bind {A B} (m : M A) (k : A -> M B) : M B :=
  fun w =>
    match m w with
    | (Ret a, w') => k a w'
    | (Panic r, w') => (Panic r, w')
    end.

Definition panic {A} (reason : string) : M A := fun w => (Panic reason, w).
Definition get : M World := fun w => (Ret w, w).
Definition modify (f : World -> World) : M unit := fun w => (Ret tt, f w).

Notation "x <- m ;; k" := (bind m (fun x => k))
  (at level 61, m at next level, right associativity).
Notation "m ;;; k" := (bind m (fun _ => k))
  (at level 61, right associativity).

(** [errors.New(text)]: a fresh error object. *)
Definition errors_New (text : string) : M GoError :=
  fun w => (Ret (mkError (heap w) text), set_heap (Pos.succ (heap w)) w).

(** endpoint.Endpoint and endpoint.Middleware of go-kit. *)
Definition Endpoint : Type := Context -> iface -> M (iface * error).
Definition Middleware : Type := Endpoint -> Endpoint.

(** ** Package hackerservice *)

Module hackerservice.

(** The interface [Service]. *)
Definition Service : Type := Context -> M (string * error).

(** [ErrRandomFailure = errors.New("random failure")], allocated when the
    package is initialised, before anything else. *)
Definition ErrRandomFailure : GoError := mkError 1%positive "random failure".

(** const failureRate = 0.1 *)
Definition failureRate : Q := 1 # 10.

(** The body of [basicService.Ping] after the draw [r := rand.Int63()]:
    [n := r % 100], which for Go's [%] is the truncated remainder. *)
Definition Ping_of_draw (r : Z) : string * error :=
  let n := Z.rem r 100 in
  match (inject_Z n ?= failureRate * 100)%Q with
  | Lt => ("", Some ErrRandomFailure)
  | _ => ("pong", None)
  end.

Section BasicService.
(** math/rand: the value of the first [Int63()] after [Seed(s)]. *)
Variable Int63_after_Seed : Z -> Z.

(** basicService.Ping *)
Definition basicService_Ping : Service :=
  fun _ =>
    w <- get ;;
    let r := Int63_after_Seed (now w) in
    ret (Ping_of_draw r).

(** NewBasicService *)
Definition NewBasicService : Service := basicService_Ping.
End BasicService.

(** The residues [0 .. 99] a uniform draw ranges over. *)
Definition residues : list Z := map Z.of_nat (seq 0 100).

Definition fails (n : Z) : bool :=
  error_eqb (snd (Ping_of_draw n)) (Some ErrRandomFailure).

Definition pongs (n : Z) : bool :=
  andb (String.eqb (fst (Ping_of_draw n)) "pong") (is_nil (snd (Ping_of_draw n))).

End hackerservice.

(** ** The libraries the packages are wired from

    None of golang.org/x/time/rate, github.com/sony/gobreaker and go-kit's
    ratelimit, circuitbreaker and opentracing packages is part of the
    repository; the models below follow the specification's description
    of them (sections 3, 4.3 and 5). *)

Module time.
Definition Nanosecond : Z := 1.
Definition Second : Z := 1000000000.
End time.

Module rate.

(** rate.NewLimiter(rate.Every(interval), burst) *)
Record Config : Type := NewLimiter { Every : Z; burst : Z }.

(** Modelled from the spec: the token bucket of golang.org/x/time/rate,
    which is not part of the repository.  "Capacity and refill rate are
    fixed at construction; state is the current token count and
    last-refill timestamp, mutated on every call attempt."  Tokens are
    counted in nanoseconds of refill, so one call costs [Every c]. *)
Definition refill (c : Config) (l : Limiter) (t : Z) : Z :=
  Z.min (burst c * Every c) (lim_tokens l + Z.max 0 (t - lim_last l)).

(** Modelled from the spec: [Limiter.Allow] of golang.org/x/time/rate,
    which is not part of the repository: a call takes one token or is
    refused at once; the bucket is refilled to the current time first. *)
Definition Allow (c : Config) : M bool :=
  fun w =>
    let tk := refill c (limiter w) (now w) in
    if Every c <=? tk
    then (Ret true, set_limiter (mkLimiter (tk - Every c) (now w)) w)
    else (Ret false, set_limiter (mkLimiter tk (now w)) w).

End rate.

Module ratelimit.

Definition ErrLimited : GoError := mkError 2%positive "rate limit exceeded".

(** Modelled from the spec: go-kit's ratelimit.NewErroringLimiter, which
    is not part of the repository.  "On exhaustion it fails the call
    immediately with a rate-limit error rather than blocking." *)
Definition NewErroringLimiter (limit : rate.Config) : Middleware :=
  fun next ctx request =>
    ok <- rate.Allow limit ;;
    if ok : bool then next ctx request else ret (INil, Some ErrLimited).

End ratelimit.

Module gobreaker.

Definition ErrOpenState : GoError :=
  mkError 3%positive "circuit breaker is open".
Definition ErrTooManyRequests : GoError :=
  mkError 4%positive "too many requests".

(** gobreaker.Settings, the fields the repository sets. *)
Record Settings : Type := mkSettings { Name : string; Timeout : Z }.

(** The configuration a breaker is built with. *)
Record Breaker : Type := mkConfig { threshold : nat; timeout : Z }.

Definition closed : CircuitBreaker := mkBreaker StateClosed 0 0 0.

Section Defaults.
(** The failure threshold [N] of the specification and the timeout a
    breaker gets when its settings leave [Timeout] at zero. *)
Variable N : nat.
Variable defaultTimeout : Z.

(** Modelled from the spec: gobreaker.NewCircuitBreaker, which is not
    part of the repository; the threshold and the reset timeout are fixed
    at construction. *)
Definition NewCircuitBreaker (st : Settings) : Breaker :=
  mkConfig N (if Timeout st <=? 0 then defaultTimeout else Timeout st).
End Defaults.

(** Modelled from the spec: the state machine of
    github.com/sony/gobreaker, which is not part of the repository.
    "closed (calls pass through, failures counted), after N consecutive
    failures open (calls fail immediately without invoking the wrapped
    endpoint), after a timeout elapses half-open (exactly one trial call
    permitted), success returns to closed, failure returns to open." *)
Definition currentState (cb : Breaker) : M State :=
  fun w =>
    let b := breaker w in
    match cb_state b with
    | StateOpen =>
        if cb_expiry b <? now w
        then (Ret StateHalfOpen, set_breaker (mkBreaker StateHalfOpen 0 0 0) w)
        else (Ret StateOpen, w)
    | s => (Ret s, w)
    end.

(** Modelled from the spec: the count of admitted calls, by which the
    half-open state permits exactly one trial. *)
Definition onRequest (b : CircuitBreaker) : CircuitBreaker :=
  mkBreaker (cb_state b) (cb_failures b) (S (cb_requests b)) (cb_expiry b).

(** Modelled from the spec: admission of a call by the breaker of
    gobreaker; [None] lets it through, an open breaker and a half-open
    one whose trial is in flight turn it away. *)
Definition beforeRequest (cb : Breaker) : M error :=
  s <- currentState cb ;;
  w <- get ;;
  match s with
  | StateOpen => ret (Some ErrOpenState)
  | StateHalfOpen =>
      if (1 <=? cb_requests (breaker w))%nat
      then ret (Some ErrTooManyRequests)
      else modify (set_breaker (onRequest (breaker w))) ;;; ret None
  | StateClosed =>
      modify (set_breaker (onRequest (breaker w))) ;;; ret None
  end.

(** Modelled from the spec: a success resets the count of consecutive
    failures and, in the half-open state, closes the breaker. *)
Definition onSuccess (s : State) (b : CircuitBreaker) : CircuitBreaker :=
  match s with
  | StateClosed => mkBreaker StateClosed 0 (cb_requests b) (cb_expiry b)
  | StateHalfOpen => closed
  | StateOpen => b
  end.

(** Modelled from the spec: a failure is counted; the one that reaches
    the threshold, and a failed trial, open the breaker for the timeout. *)
Definition onFailure (cb : Breaker) (s : State) (t : Z) (b : CircuitBreaker)
  : CircuitBreaker :=
  match s with
  | StateClosed =>
      if (threshold cb <=? S (cb_failures b))%nat
      then mkBreaker StateOpen 0 0 (t + timeout cb)
      else mkBreaker StateClosed (S (cb_failures b)) (cb_requests b) (cb_expiry b)
  | StateHalfOpen => mkBreaker StateOpen 0 0 (t + timeout cb)
  | StateOpen => b
  end.

(** Modelled from the spec: completion of an admitted call. *)
Definition afterRequest (cb : Breaker) (success : bool) : M unit :=
  s <- currentState cb ;;
  w <- get ;;
  if success
  then modify (set_breaker (onSuccess s (breaker w)))
  else modify (set_breaker (onFailure cb s (now w) (breaker w))).

(** Modelled from the spec: [CircuitBreaker.Execute] of gobreaker:
    admission, the call, completion; a call that panics counts as a
    failure. *)
Definition Execute (cb : Breaker) (req : M (iface * error)) : M (iface * error) :=
  adm <- beforeRequest cb ;;
  match adm with
  | Some e => ret (INil, Some e)
  | None =>
      fun w =>
        match req w with
        | (Ret (result, err), w') =>
            (afterRequest cb (is_nil err) ;;; ret (result, err)) w'
        | (Panic r, w') => (afterRequest cb false ;;; panic r) w'
        end
  end.

End gobreaker.

Module circuitbreaker.

(** Modelled from the spec: go-kit's circuitbreaker.Gobreaker, which is
    not part of the repository: the wrapped endpoint runs under the
    breaker, and an error it returns is a failure. *)
Definition Gobreaker (cb : gobreaker.Breaker) : Middleware :=
  fun next ctx request => gobreaker.Execute cb (next ctx request).

End circuitbreaker.

Module opentracing.

(** A tracer: the global one is a no-op, a recording one keeps the spans
    it finishes. *)
Inductive Tracer : Type := GlobalTracer | Recorder.

(** Modelled from the spec: [Span.Finish] of opentracing-go, which is not
    part of the repository. *)
Definition Finish (tracer : Tracer) (s : Span) : M unit :=
  match tracer with
  | GlobalTracer => ret tt
  | Recorder => modify (add_span s)
  end.

(** Modelled from the spec: go-kit's tracing middleware, which is not
    part of the repository.  It "starts a span tagged with the operation
    name around the call, propagating trace context through the call's
    context parameter; completes the span with the call's error, if any,
    attached as a tag." *)
Definition traced (tracer : Tracer) (operationName : string) : Middleware :=
  fun next ctx request w =>
    match next (mkContext (Some operationName)) request w with
    | (Ret (response, err), w') =>
        (Finish tracer (mkSpan operationName err) ;;; ret (response, err)) w'
    | (Panic r, w') =>
        (Finish tracer (mkSpan operationName None) ;;; panic r) w'
    end.

Definition TraceServer : Tracer -> string -> Middleware := traced.
Definition TraceClient : Tracer -> string -> Middleware := traced.

End opentracing.

Module log.
Definition Logger : Type := keyvals.
Definition NewNopLogger : Logger := [].
(** Modelled from the spec: log.With of go-kit, which is not part of the
    repository: the logger with one more key/value pair. *)
Definition With (l : Logger) (k v : string) : Logger := (l ++ [(k, v)])%list.
End log.

Module metrics.
Definition Histogram : Type := keyvals.
(** Modelled from the spec: Histogram.With of go-kit, which is not part of
    the repository: the histogram with one more label. *)
Definition With (h : Histogram) (k v : string) : Histogram := (h ++ [(k, v)])%list.
End metrics.

(** ** Package hackerendpoint *)

Module hackerendpoint.
Import hackerservice.

(** type Set struct { PingEndpoint endpoint.Endpoint } *)
Record EndpointSet : Type := mkSet { PingEndpoint : Endpoint }.

(** PingResponse.Failed, the method of the interface [Failer]. *)
Definition Failed (r : PingResponse) : error := Err r.

(** MakePingEndpoint: the assertion [request.(PingRequest)] panics on any
    other value; the error of the service goes into the response and the
    error result is [nil]. *)
Definition MakePingEndpoint (s : Service) : Endpoint :=
  fun ctx request =>
    match request with
    | IPingRequest =>
        r <- s ctx ;;
        let (p, err) := r : string * error in
        ret (IPingResponse (mkPingResponse p err), None)
    | _ => panic "interface conversion: interface {} is not hackerendpoint.PingRequest"
    end.

(** Set.Ping *)
Definition Ping (s : EndpointSet) : Service :=
  fun ctx =>
    r <- PingEndpoint s ctx IPingRequest ;;
    let (resp, err) := r : iface * error in
    match err with
    | Some e => ret ("", Some e)
    | None =>
        match resp with
        | IPingResponse response => ret (P response, Err response)
        | _ => panic "interface conversion: interface {} is not hackerendpoint.PingResponse"
        end
    end.

(** Modelled from the spec: the endpoint middleware LoggingMiddleware of
    this package, whose file is missing from the sources.  Logging is
    applied "around the entire stack (outermost), so every inbound call
    is logged ... exactly once regardless of which inner layer rejected
    it": one record per call, written when the inner endpoint returns. *)
Definition LoggingMiddleware (logger : log.Logger) : Middleware :=
  fun next ctx request =>
    r <- next ctx request ;;
    modify (add_log (mkLog logger (snd r))) ;;;
    ret r.

(** Modelled from the spec: the endpoint middleware
    InstrumentingMiddleware of this package, whose file is missing from
    the sources.  Every inbound call is "counted exactly once": one
    observation of the call's duration in the histogram. *)
Definition InstrumentingMiddleware (duration : metrics.Histogram) : Middleware :=
  fun next ctx request =>
    w <- get ;;
    let begin := now w in
    r <- next ctx request ;;
    w' <- get ;;
    modify (add_obs (mkObs duration (now w' - begin))) ;;;
    ret r.

Section Wiring.
Variable N : nat.
Variable defaultTimeout : Z.

(** New *)
Definition New (svc : Service) (logger : log.Logger)
    (duration : metrics.Histogram) (trace : opentracing.Tracer) : EndpointSet :=
  let pingEndpoint := MakePingEndpoint svc in
  let pingEndpoint :=
    ratelimit.NewErroringLimiter (rate.NewLimiter time.Second 100) pingEndpoint in
  let pingEndpoint :=
    circuitbreaker.Gobreaker
      (gobreaker.NewCircuitBreaker N defaultTimeout (gobreaker.mkSettings "" 0))
      pingEndpoint in
  let pingEndpoint := opentracing.TraceServer trace "Ping" pingEndpoint in
  let pingEndpoint := LoggingMiddleware (log.With logger "method" "Ping") pingEndpoint in
  let pingEndpoint :=
    InstrumentingMiddleware (metrics.With duration "method" "Ping") pingEndpoint in
  mkSet pingEndpoint.
End Wiring.

End hackerendpoint.

(** ** encoding/json and net/http, as far as the transports use them *)

Module json.

(** JSON documents: [null], an object with string members, or the
    encoding of a value of a type declared outside the repository. *)
Inductive Value : Type :=
| Null
| Obj (members : list (string * string))
| Opaque.

(** What [Encode] writes for a value, by the struct tags of its type:
    PingRequest has no fields, and the field [Err] of a PingResponse is
    tagged ["-"] and left out. *)
Definition Marshal (v : iface) : Value :=
  match v with
  | INil => Null
  | IPingRequest => Obj []
  | IPingResponse r => Obj [("p", P r)]
  | _ => Opaque
  end.

End json.

Module http.

Definition StatusOK : Z := 200.
Definition StatusTeapot : Z := 418.
Definition StatusInternalServerError : Z := 500.

(** A body: its bytes and how many of them have been read. *)
Record Reader : Type := mkReader { data : string; consumed : nat }.

Record Request : Type := mkRequest { Method : string; req_Body : json.Value }.

Record Response : Type :=
  mkResponse { Status : string; StatusCode : Z; Body : Reader }.

Definition with_Body (r : Response) (b : Reader) : Response :=
  mkResponse (Status r) (StatusCode r) b.

(** http.ResponseWriter is an interface: a writer is modelled by the calls
    made on it, in order. *)
Inductive Call : Type :=
| CallWriteHeader (statusCode : Z)
| CallHeaderSet (key value : string)
| CallEncode (document : json.Value).

Definition ResponseWriter : Type := list Call.

Definition NewRecorder : ResponseWriter := [].

(** rw.WriteHeader(code) *)
Definition WriteHeader (code : Z) (rw : ResponseWriter) : ResponseWriter :=
  (rw ++ [CallWriteHeader code])%list.

(** rw.Header().Set(k, v) *)
Definition Header_Set (k v : string) (rw : ResponseWriter) : ResponseWriter :=
  (rw ++ [CallHeaderSet k v])%list.

(** json.NewEncoder(rw).Encode(v), for a value whose document is [v] *)
Definition Encode (v : json.Value) (rw : ResponseWriter) : ResponseWriter :=
  (rw ++ [CallEncode v])%list.

End http.

(** ** Package hackertransport *)

Module hackertransport.
Import hackerservice hackerendpoint.

(** *** thrift.go and grpc.go *)

(** The generated Thrift client: its method [Ping]. *)
Definition HackerServiceClient : Type :=
  Context -> M (option thrift_PingReply * error).

(** str2err *)
Definition str2err (s : string) : M error :=
  if String.eqb s "" then ret None
  else e <- errors_New s ;; ret (Some e).

(** err2str *)
Definition err2str (err : error) : string :=
  match err with
  | None => ""
  | Some e => Error e
  end.

(** thriftServer.Ping *)
Definition thriftServer_Ping (endpoints : EndpointSet) : HackerServiceClient :=
  fun ctx =>
    let request := IPingRequest in
    r <- PingEndpoint endpoints ctx request ;;
    let (response, err) := r : iface * error in
    match err with
    | Some e => ret (None, Some e)
    | None =>
        match response with
        | IPingResponse resp =>
            ret (Some (mkThriftReply (P resp) (err2str (Err resp))), None)
        | _ => panic "interface conversion: interface {} is not hackerendpoint.PingResponse"
        end
    end.

(** MakeThriftPingEndpoint *)
Definition MakeThriftPingEndpoint (client : HackerServiceClient) : Endpoint :=
  fun ctx request =>
    match request with
    | IPingRequest =>
        r <- client ctx ;;
        let (reply, err) := r : option thrift_PingReply * error in
        if error_eqb err (Some ErrRandomFailure)
        then ret (INil, err)
        else
          match reply with
          | Some reply => ret (IPingResponse (mkPingResponse (Value reply) err), None)
          | None => panic "invalid memory address or nil pointer dereference"
          end
    | _ => panic "interface conversion: interface {} is not hackerendpoint.PingRequest"
    end.

(** decodeGRPCPingRequest *)
Definition decodeGRPCPingRequest (_ : Context) (grpcReq : iface) : M (iface * error) :=
  match grpcReq with
  | IPbPingRequest => ret (IPingRequest, None)
  | _ => panic "interface conversion: interface {} is not *pb.PingRequest"
  end.

(** decodeGRPCPingResponse *)
Definition decodeGRPCPingResponse (_ : Context) (grpcReply : iface) : M (iface * error) :=
  match grpcReply with
  | IPbPingReply reply =>
      e <- str2err (pb_Err reply) ;;
      ret (IPingResponse (mkPingResponse (pb_P reply) e), None)
  | _ => panic "interface conversion: interface {} is not *pb.PingReply"
  end.

(** encodeGRPCPingResponse *)
Definition encodeGRPCPingResponse (_ : Context) (response : iface) : M (iface * error) :=
  match response with
  | IPingResponse resp =>
      ret (IPbPingReply (mkPbReply (P resp) (err2str (Err resp))), None)
  | _ => panic "interface conversion: interface {} is not hackerendpoint.PingResponse"
  end.

(** encodeGRPCPingRequest *)
Definition encodeGRPCPingRequest (_ : Context) (request : iface) : M (iface * error) :=
  match request with
  | IPingRequest => ret (IPbPingRequest, None)
  | _ => panic "interface conversion: interface {} is not hackerendpoint.PingRequest"
  end.

(** *** http.go *)

(** type errorWrapper struct { Error string } *)
Record errorWrapper : Type := mkErrorWrapper { Error : string }.

Definition Marshal_errorWrapper (w : errorWrapper) : json.Value :=
  json.Obj [("error", Error w)].

(** err2code *)
Definition err2code (err : error) : Z :=
  if error_eqb err (Some ErrRandomFailure)
  then http.StatusTeapot
  else http.StatusInternalServerError.

(** errorEncoder: [err.Error()] on a nil error panics, after the status
    line has been written. *)
Definition errorEncoder (_ : Context) (err : error) (rw : http.ResponseWriter)
  : outcome unit * http.ResponseWriter :=
  let rw := http.WriteHeader (err2code err) rw in
  match err with
  | None => (Panic "invalid memory address or nil pointer dereference", rw)
  | Some e =>
      (Ret tt, http.Encode (Marshal_errorWrapper (mkErrorWrapper (errors.Error e))) rw)
  end.

Section ServerEncoding.

(** For a value of a type declared outside the package: whether the type
    implements [Failer] and, if it does, how the call [Failed()] on the
    value ends.  [None] is a type without the method; a nil pointer to a
    [PingResponse] implements it and the call panics. *)
Variable Failed_of_other : iface -> option (outcome error).

(** The error [json.NewEncoder(rw).Encode(response)] returns, which
    depends on the writer, in the state it is called in, and on the
    value. *)
Variable Encode_error : http.ResponseWriter -> iface -> error.

(** The assertion [response.(hackerendpoint.Failer)] followed by the call
    [f.Failed()]: a nil interface and a PingRequest do not implement
    [Failer], a PingResponse does. *)
Definition as_Failer (response : iface) : option (outcome error) :=
  match response with
  | INil => None
  | IPingRequest => None
  | IPingResponse f => Some (Ret (Failed f))
  | other => Failed_of_other other
  end.

(** encodeHTTPGenericResponse: a [Failer] that failed is handed to
    [errorEncoder] and nil is returned; everything else is encoded after
    the Content-Type header is set, and the error of the encoder is
    returned. *)
Definition encodeHTTPGenericResponse (ctx : Context) (rw : http.ResponseWriter)
    (response : iface) : outcome error * http.ResponseWriter :=
  let plain :=
    let rw := http.Header_Set "Content-Type" "application/json; charset=utf-8" rw in
    (Ret (Encode_error rw response), http.Encode (json.Marshal response) rw) in
  match as_Failer response with
  | Some (Panic r) => (Panic r, rw)
  | Some (Ret (Some e)) =>
      match errorEncoder ctx (Some e) rw with
      | (Ret _, rw') => (Ret None, rw')
      | (Panic r, rw') => (Panic r, rw')
      end
  | Some (Ret None) => plain
  | None => plain
  end.

End ServerEncoding.

Section Transport.

(** encoding/json: [json.NewDecoder(body).Decode(&v)] for the three types
    it is used at; it returns the value, the error and the body as it
    leaves it. *)
Variable json_Decode_errorWrapper :
  http.Reader -> M ((errorWrapper * error) * http.Reader).
Variable json_Decode_PingRequest : http.Reader -> M (error * http.Reader).
Variable json_Decode_PingResponse :
  http.Reader -> M ((PingResponse * error) * http.Reader).

(** errorDecoder *)
Definition errorDecoder (req : http.Response) : M (error * http.Response) :=
  d <- json_Decode_errorWrapper (http.Body req) ;;
  let '((w, err), body) := d in
  match err with
  | Some e => ret (Some e, http.with_Body req body)
  | None => e <- errors_New (Error w) ;; ret (Some e, http.with_Body req body)
  end.

(** decodeHTTPPingRequest, on the body of the request *)
Definition decodeHTTPPingRequest (_ : Context) (body : http.Reader)
  : M ((iface * error) * http.Reader) :=
  d <- json_Decode_PingRequest body ;;
  let '(err, body) := d in
  ret ((IPingRequest, err), body).

(** decodeHTTPPingResponse *)
Definition decodeHTTPPingResponse (_ : Context) (r : http.Response)
  : M ((iface * error) * http.Response) :=
  if negb (http.StatusCode r =? http.StatusOK)
  then e <- errors_New (http.Status r) ;; ret ((INil, Some e), r)
  else
    d <- json_Decode_PingResponse (http.Body r) ;;
    let '((resp, err), body) := d in
    ret ((IPingResponse resp, err), http.with_Body r body).

(** encodeHTTPGenericRequest *)
Definition encodeHTTPGenericRequest (_ : Context) (r : http.Request) (request : iface)
  : http.Request * error :=
  (http.mkRequest (http.Method r) (json.Marshal request), None).

(** go-kit's transport clients, which make the call over the wire with the
    codec functions they are given, and the parser of net/url. *)
Definition EncodeRequestFunc : Type :=
  Context -> http.Request -> iface -> http.Request * error.
Definition DecodeResponseFunc : Type :=
  Context -> http.Response -> M ((iface * error) * http.Response).
Definition CodecFunc : Type := Context -> iface -> M (iface * error).

Record URL : Type := mkURL { Host : string; Path : string }.

Variable url_Parse : string -> URL * error.
Variable httptransport_NewClient :
  string -> URL -> EncodeRequestFunc -> DecodeResponseFunc ->
  opentracing.Tracer -> log.Logger -> Endpoint.
Variable grpctransport_NewClient :
  string -> string -> string -> CodecFunc -> CodecFunc ->
  opentracing.Tracer -> log.Logger -> Endpoint.

Variable N : nat.
Variable defaultTimeout : Z.

(** copyURL *)
Definition copyURL (base : URL) (path : string) : URL :=
  mkURL (Host base) path.

(** NewHTTPClient; no service is returned when the address does not
    parse. *)
Definition NewHTTPClient (instance : string) (tracer : opentracing.Tracer)
    (logger : log.Logger) : option EndpointSet * error :=
  let instance :=
    if negb (String.prefix "http" instance) then "http://" ++ instance else instance in
  let (u, err) := url_Parse instance in
  match err with
  | Some e => (None, Some e)
  | None =>
      let limiter := ratelimit.NewErroringLimiter (rate.NewLimiter time.Second 100) in
      let pingEndpoint :=
        httptransport_NewClient "POST" (copyURL u "/ping")
          encodeHTTPGenericRequest decodeHTTPPingResponse tracer logger in
      let pingEndpoint := opentracing.TraceClient tracer "Ping" pingEndpoint in
      let pingEndpoint := limiter pingEndpoint in
      let pingEndpoint :=
        circuitbreaker.Gobreaker
          (gobreaker.NewCircuitBreaker N defaultTimeout
             (gobreaker.mkSettings "Ping" (30 * time.Second)))
          pingEndpoint in
      (Some (mkSet pingEndpoint), None)
  end.

(** NewGRPCClient *)
Definition NewGRPCClient (conn : string) (tracer : opentracing.Tracer)
    (logger : log.Logger) : EndpointSet :=
  let limiter := ratelimit.NewErroringLimiter (rate.NewLimiter time.Second 100) in
  let pingEndpoint :=
    grpctransport_NewClient conn "pb.Hacker" "Ping"
      encodeGRPCPingRequest decodeGRPCPingResponse tracer logger in
  let pingEndpoint := opentracing.TraceClient tracer "Ping" pingEndpoint in
  let pingEndpoint := limiter pingEndpoint in
  let pingEndpoint :=
    circuitbreaker.Gobreaker
      (gobreaker.NewCircuitBreaker N defaultTimeout
         (gobreaker.mkSettings "Ping" (30 * time.Second)))
      pingEndpoint in
  mkSet pingEndpoint.

(** NewThriftClient *)
Definition NewThriftClient (client : HackerServiceClient) : EndpointSet :=
  let limiter := ratelimit.NewErroringLimiter (rate.NewLimiter time.Second 100) in
  let pingEndpoint := MakeThriftPingEndpoint client in
  let pingEndpoint := limiter pingEndpoint in
  let pingEndpoint :=
    circuitbreaker.Gobreaker
      (gobreaker.NewCircuitBreaker N defaultTimeout
         (gobreaker.mkSettings "Ping" (10 * time.Second)))
      pingEndpoint in
  mkSet pingEndpoint.

End Transport.

End hackertransport.

(** ** Package hackerservice: the service middlewares

    logging.go, middleware.go and the instrumenting file declare the same
    two decorators; they are modelled once.  The logger and the counter
    are interface values handed in by the caller: each is modelled by the
    one method the decorators call on it. *)

Module servicemiddleware.
Import hackerservice.

(** A value passed to [Log]: a string or an error. *)
Inductive LogValue : Type :=
| LString (s : string)
| LError (err : error).

(** log.Logger: its method [Log(keyvals...)]; the error [Log] returns is
    discarded by the decorator. *)
Definition Logger : Type := list LogValue -> M unit.

(** metrics.Counter: its method [Add(delta)]. *)
Definition Counter : Type := Z -> M unit.

(** type Middleware func(Service) Service *)
Definition Middleware : Type := Service -> Service.

(** The arguments of the one [Log] call of loggingMiddleware.Ping. *)
Definition ping_keyvals (p : string) (err : error) : list LogValue :=
  [LString "method"; LString "Ping"; LString "p"; LString p;
   LString "err"; LError err].

(** loggingMiddleware.Ping: the deferred function logs the named results
    when the method ends, also when [next] panics; the results then still
    hold their zero values. *)
Definition loggingMiddleware_Ping (logger : Logger) (next : Service) : Service :=
  fun ctx w =>
    match next ctx w with
    | (Ret (p, err), w') => (logger (ping_keyvals p err) ;;; ret (p, err)) w'
    | (Panic r, w') => (logger (ping_keyvals "" None) ;;; panic r) w'
    end.

(** LoggingMiddleware *)
Definition LoggingMiddleware (logger : Logger) : Middleware :=
  fun next => loggingMiddleware_Ping logger next.

(** instrumentingMiddleware.Ping *)
Definition instrumentingMiddleware_Ping (pings : Counter) (next : Service) : Service :=
  fun ctx =>
    r <- next ctx ;;
    pings 1 ;;;
    ret r.

(** InstrumentingMiddleware *)
Definition InstrumentingMiddleware (pings : Counter) : Middleware :=
  fun next => instrumentingMiddleware_Ping pings next.

Section ServiceNew.
(** math/rand: the value of the first [Int63()] after [Seed(s)]. *)
Variable Int63_after_Seed : Z -> Z.

(** hackerservice.New *)
Definition New (logger : Logger) (pings : Counter) : Service :=
  let svc := NewBasicService Int63_after_Seed in
  let svc := LoggingMiddleware logger svc in
  let svc := InstrumentingMiddleware pings svc in
  svc.
End ServiceNew.

(** A logger or counter whose method returns, whatever it is given. *)
Definition answers {A : Type} (method : A -> M unit) : Prop :=
  forall a w, exists w', method a w = (Ret tt, w').

End servicemiddleware.

(** ** Compositions and concrete states the properties are stated on *)

(** A stack of middlewares around a base endpoint, innermost first. *)
Definition chain (mws : list Middleware) (base : Endpoint) : Endpoint :=
  fold_left (fun ep mw => mw ep) mws base.

(** The state a call leaves behind, and the state after [n] calls in a
    row. *)
Definition call (ep : Endpoint) (ctx : Context) (request : iface) (w : World) : World :=
  snd (ep ctx request w).

Fixpoint calls_n (n : nat) (ep : Endpoint) (ctx : Context) (request : iface)
    (w : World) : World :=
  match n with
  | O => w
  | S n' => call ep ctx request (calls_n n' ep ctx request w)
  end.

(** An endpoint that writes neither to the endpoint logger nor to the
    histogram, however it ends. *)
Definition silent (ep : Endpoint) : Prop :=
  forall ctx request w,
    ep_log (snd (ep ctx request w)) = ep_log w /\
    ep_hist (snd (ep ctx request w)) = ep_hist w.

(** An endpoint that returns, rather than panics, on [request]. *)
Definition returns (ep : Endpoint) (request : iface) : Prop :=
  forall ctx w, exists r, fst (ep ctx request w) = Ret r.

(** The same two properties of a service. *)
Definition svc_silent (s : hackerservice.Service) : Prop :=
  forall ctx w,
    ep_log (snd (s ctx w)) = ep_log w /\ ep_hist (snd (s ctx w)) = ep_hist w.

Definition svc_returns (s : hackerservice.Service) : Prop :=
  forall ctx w, exists r, fst (s ctx w) = Ret r.

(** A computation that writes neither to the endpoint logger nor to the
    histogram. *)
Definition quiet_run {A : Type} (m : M A) : Prop :=
  forall w, ep_log (snd (m w)) = ep_log w /\ ep_hist (snd (m w)) = ep_hist w.

(** An endpoint without access to the breaker that wraps it. *)
Definition keeps_breaker (next : Endpoint) : Prop :=
  forall ctx request w, breaker (snd (next ctx request w)) = breaker w.

(** Whether a call ended with a non-nil error result. *)
Definition failed (o : outcome (iface * error)) : bool :=
  match o with
  | Ret (_, Some _) => true
  | _ => false
  end.

(** Whether each of [n] calls in a row, from [w] on, ended with an
    error. *)
Fixpoint all_fail (n : nat) (ep : Endpoint) (ctx : Context) (request : iface)
    (w : World) : bool :=
  match n with
  | O => true
  | S n' =>
      all_fail n' ep ctx request w &&
      failed (fst (ep ctx request (calls_n n' ep ctx request w)))
  end.

(** The trial call of the half-open state, admitted in [w] and run by the
    wrapped endpoint in [w1]: its success closes the breaker, its failure
    opens it for the timeout [T]. *)
Definition trial_call (T : Z) (wrapped guarded : Endpoint)
    (ctx : Context) (request : iface) (w w1 : World) : Prop :=
  match wrapped ctx request w1 with
  | (Ret (resp, None), w2) =>
      guarded ctx request w
      = (Ret (resp, None), set_breaker (mkBreaker StateClosed 0 0 0) w2)
  | (Ret (resp, Some e), w2) =>
      guarded ctx request w
      = (Ret (resp, Some e), set_breaker (mkBreaker StateOpen 0 0 (now w2 + T)) w2)
  | (Panic r, _) => fst (guarded ctx request w) = Panic r
  end.

(** The specification of the breaker (section 4.3), as a relation between
    a wrapped endpoint and the endpoint [guarded] that the breaker makes
    of it, for the threshold [N] and the timeout [T].  Closed: the call
    passes through; a success clears the count of consecutive failures, a
    failure adds to it and the one that reaches [N] opens the breaker
    until [T] after the call.  Open: until the open period is over the
    call fails with [ErrOpenState] and nothing else happens; after it,
    the call is the trial.  Half-open: a call that finds the trial in
    flight fails with [ErrTooManyRequests] and nothing else happens. *)
Definition three_state_breaker (N : nat) (T : Z) (wrapped guarded : Endpoint) : Prop :=
  forall (ctx : Context) (request : iface) (w : World),
    let b := breaker w in
    match cb_state b with
    | StateClosed =>
        let admitted :=
          mkBreaker StateClosed (cb_failures b) (S (cb_requests b)) (cb_expiry b) in
        match wrapped ctx request (set_breaker admitted w) with
        | (Ret (resp, None), w2) =>
            guarded ctx request w
            = (Ret (resp, None),
               set_breaker
                 (mkBreaker StateClosed 0 (S (cb_requests b)) (cb_expiry b)) w2)
        | (Ret (resp, Some e), w2) =>
            guarded ctx request w
            = (Ret (resp, Some e),
               set_breaker
                 (if (N <=? S (cb_failures b))%nat
                  then mkBreaker StateOpen 0 0 (now w2 + T)
                  else mkBreaker StateClosed (S (cb_failures b))
                         (S (cb_requests b)) (cb_expiry b))
                 w2)
        | (Panic r, _) => fst (guarded ctx request w) = Panic r
        end
    | StateOpen =>
        if cb_expiry b <? now w
        then trial_call T wrapped guarded ctx request w
               (set_breaker (mkBreaker StateHalfOpen 0 1 0) w)
        else guarded ctx request w = (Ret (INil, Some gobreaker.ErrOpenState), w)
    | StateHalfOpen =>
        match cb_requests b with
        | O =>
            trial_call T wrapped guarded ctx request w
              (set_breaker (mkBreaker StateHalfOpen (cb_failures b) 1 (cb_expiry b)) w)
        | S _ =>
            guarded ctx request w = (Ret (INil, Some gobreaker.ErrTooManyRequests), w)
        end
    end.

(** The same specification over a run of calls: from a closed breaker
    that has counted [k] failures, [n] failed calls in a row with
    [k + n = N] leave it closed up to the last and open, until [T] after
    it, from then on; the next call is then turned away and changes
    nothing. *)
Definition opens_after_failures (N : nat) (T : Z) (guarded : Endpoint) : Prop :=
  forall (ctx : Context) (request : iface) (w : World) (n : nat),
    cb_state (breaker w) = StateClosed ->
    (0 < n)%nat ->
    (cb_failures (breaker w) + n = N)%nat ->
    all_fail n guarded ctx request w = true ->
    (forall j, (j < n)%nat ->
       let wj := calls_n j guarded ctx request w in
       cb_state (breaker wj) = StateClosed /\
       cb_failures (breaker wj) = (cb_failures (breaker w) + j)%nat) /\
    let wN := calls_n n guarded ctx request w in
    breaker wN = mkBreaker StateOpen 0 0 (now wN + T) /\
    (0 <= T ->
       guarded ctx request wN = (Ret (INil, Some gobreaker.ErrOpenState), wN)).

Module Examples.

(** A process just started: the package-level errors are allocated, the
    bucket is full and the breaker closed. *)
Definition init : World :=
  mkWorld 0 5%positive (mkLimiter (100 * time.Second) 0) gobreaker.closed [] [] [] 0.

(** The same process with its breaker open until [t = 60 s]. *)
Definition tripped : World :=
  set_breaker (mkBreaker StateOpen 0 0 (60 * time.Second)) init.

(** A service that always fails with the sentinel, and one that never
    fails. *)
Definition failing : hackerservice.Service :=
  fun _ => ret ("", Some hackerservice.ErrRandomFailure).
Definition healthy : hackerservice.Service :=
  fun _ => ret ("pong", None).

(** A Thrift client that counts the calls made to it and answers each
    with an empty reply and the sentinel. *)
Definition refusing : hackertransport.HackerServiceClient :=
  fun _ =>
    modify incr_calls ;;;
    ret (Some (mkThriftReply "" ""), Some hackerservice.ErrRandomFailure).

(** A transport client that answers every call with an empty response. *)
Definition stub : Endpoint := fun _ _ => ret (INil, None).

End Examples.

(** * Properties *)

Import hackerservice hackerendpoint hackertransport.

(** Unfolding of the monad. *)
Ltac run := unfold bind, ret, get, modify, panic in *; simpl in *.

(** ** The basic service *)

Lemma threshold_compare (n : Z) :
  (inject_Z n ?= failureRate * 100)%Q = (n ?= 10).
Proof.
  unfold Qcompare, failureRate; simpl.
  destruct (Z.compare_spec n 10), (Z.compare_spec (n * 10) 100); auto; lia.
Qed.

Lemma threshold_compare_flip (n : Z) :
  (failureRate * 100 ?= inject_Z n)%Q = (10 ?= n).
Proof.
  unfold Qcompare, failureRate.
  change (Qnum ((1 # 10) * 100) * QDen (inject_Z n)) with 100.
  change (Qnum (inject_Z n) * QDen ((1 # 10) * 100)) with (n * 10).
  destruct (Z.compare_spec 10 n), (Z.compare_spec 100 (n * 10)); auto; lia.
Qed.

Lemma Ping_of_draw_cases (r : Z) :
  0 <= r ->
  Ping_of_draw r =
    if r mod 100 <? 10 then ("", Some ErrRandomFailure) else ("pong", None).
Proof.
  intros Hr. unfold Ping_of_draw.
  rewrite threshold_compare, Z.rem_mod_nonneg by lia.
  unfold Z.ltb. destruct (r mod 100 ?= 10); reflexivity.
Qed.

(** C1: with [n] the draw reduced modulo 100, [basicService.Ping] returns
    ["pong"] and a nil error exactly when [n >= failureRate * 100], and the
    empty payload with [ErrRandomFailure] exactly when
    [n < failureRate * 100]; of the 100 residues a share [failureRate]
    fails and a share [1 - failureRate] answers ["pong"], and
    [failureRate] lies in [0, 1]. *)
Theorem C1_basicService_Ping :
  forall (Int63 : Z -> Z) (ctx : Context) (w : World),
    (forall seed, 0 <= Int63 seed < 2 ^ 63) ->
    let n := Int63 (now w) mod 100 in
    0 <= n < 100 /\
    (basicService_Ping Int63 ctx w = (Ret ("pong", None), w)
       <-> (failureRate * 100 <= inject_Z n)%Q) /\
    (basicService_Ping Int63 ctx w = (Ret ("", Some ErrRandomFailure), w)
       <-> (inject_Z n < failureRate * 100)%Q) /\
    (inject_Z (Z.of_nat (List.length (filter fails residues))) / 100 == failureRate)%Q /\
    (inject_Z (Z.of_nat (List.length (filter pongs residues))) / 100 == 1 - failureRate)%Q /\
    (0 <= failureRate <= 1)%Q.
Proof.
  intros Int63 ctx w Hrange n.
  assert (Hn : 0 <= n < 100) by (apply Z.mod_pos_bound; lia).
  assert (Hcall : basicService_Ping Int63 ctx w
                  = (Ret (if n <? 10 then ("", Some ErrRandomFailure) else ("pong", None)), w)).
  { unfold basicService_Ping. run.
    rewrite Ping_of_draw_cases by apply Hrange. reflexivity. }
  split; [exact Hn|].
  rewrite Hcall, Qle_alt, Qlt_alt, threshold_compare, threshold_compare_flip.
  rewrite Z.compare_lt_iff, Z.compare_le_iff.
  split.
  { split; intros H; destruct (Z.ltb_spec n 10);
      try discriminate; try reflexivity; try assumption; lia. }
  split.
  { split; intros H; destruct (Z.ltb_spec n 10);
      try discriminate; try reflexivity; try assumption; lia. }
  split; [unfold Qeq; vm_compute; reflexivity|].
  split; [unfold Qeq; vm_compute; reflexivity|].
  unfold Qle, failureRate; simpl; lia.
Qed.

Lemma C1_basicService_Ping_witness :
  let Int63 := fun seed : Z => 1234567 in
  basicService_Ping Int63 Background Examples.init
    = (Ret ("pong", None), Examples.init).
Proof.
  intro Int63.
  apply (C1_basicService_Ping Int63 Background Examples.init).
  - intro seed. unfold Int63. lia.
  - vm_compute. discriminate.
Defined.

(** ** The error-string codec *)

Lemma str2err_nonempty (s : string) (w : World) :
  s <> "" ->
  str2err s w = (Ret (Some (mkError (heap w) s)), set_heap (Pos.succ (heap w)) w).
Proof.
  intros Hs. unfold str2err.
  destruct (String.eqb_spec s ""); [contradiction|reflexivity].
Qed.

Lemma str2err_empty (w : World) : str2err "" w = (Ret None, w).
Proof. reflexivity. Qed.

(** C2: [err2str(nil)] is the empty string and [str2err("")] is nil; for
    a non-nil error [e] with a non-empty message, [str2err(err2str(e))]
    is a non-nil error with the message of [e].  It is a new object: when
    [e] was allocated before the call, the result is not [e]. *)
Theorem C2_error_string_round_trip :
  forall (e : GoError) (w : World),
    err_msg e <> "" ->
    err2str None = "" /\
    str2err "" w = (Ret None, w) /\
    exists e' w',
      str2err (err2str (Some e)) w = (Ret (Some e'), w') /\
      errors.Error e' = errors.Error e /\
      ((err_addr e < heap w)%positive -> e' <> e).
Proof.
  intros e w Hmsg. split; [reflexivity|]. split; [reflexivity|].
  exists (mkError (heap w) (err_msg e)), (set_heap (Pos.succ (heap w)) w).
  split; [|split].
  - apply str2err_nonempty. exact Hmsg.
  - reflexivity.
  - intros Hlt Heq. rewrite <- Heq in Hlt. simpl in Hlt. lia.
Qed.

Lemma C2_error_string_round_trip_witness :
  exists e' w',
    str2err (err2str (Some ErrRandomFailure)) Examples.init = (Ret (Some e'), w') /\
    errors.Error e' = "random failure" /\
    ((1 < 5)%positive -> e' <> ErrRandomFailure).
Proof.
  apply (C2_error_string_round_trip ErrRandomFailure Examples.init).
  simpl. discriminate.
Defined.

(** C10: for a non-nil error [e] whose message is empty, [err2str(e)] is
    the empty string and [str2err(err2str(e))] is nil: the error is lost,
    so the round trip of C2 needs its hypothesis. *)
Theorem C10_empty_message_becomes_nil :
  forall (e : GoError) (w : World),
    err_msg e = "" ->
    err2str (Some e) = "" /\
    str2err (err2str (Some e)) w = (Ret None, w) /\
    ~ (exists e' w', str2err (err2str (Some e)) w = (Ret (Some e'), w')).
Proof.
  intros e w Hmsg. unfold err2str, errors.Error. rewrite Hmsg.
  split; [reflexivity|]. split; [reflexivity|].
  intros (e' & w' & H). rewrite str2err_empty in H. discriminate.
Qed.

Lemma C10_empty_message_becomes_nil_witness :
  let e := mkError 7%positive "" in
  err2str (Some e) = "" /\
  str2err (err2str (Some e)) Examples.init = (Ret None, Examples.init) /\
  ~ (exists e' w', str2err (err2str (Some e)) Examples.init = (Ret (Some e'), w')).
Proof.
  intro e. apply (C10_empty_message_becomes_nil e Examples.init). reflexivity.
Defined.

(** ** The server-side base endpoint *)

Lemma MakePingEndpoint_run (s : Service) (ctx : Context) (w : World) :
  MakePingEndpoint s ctx IPingRequest w =
    match s ctx w with
    | (Ret (p, err), w') => (Ret (IPingResponse (mkPingResponse p err), None), w')
    | (Panic r, w') => (Panic r, w')
    end.
Proof.
  unfold MakePingEndpoint, bind.
  destruct (s ctx w) as [[[p err]|r] w']; reflexivity.
Qed.

(** C8: on a request of the shape [PingRequest], the endpoint of
    [MakePingEndpoint] returns whenever the service does, with the
    service's payload and error inside the [PingResponse] and a nil error
    result; it panics only when the service panics. *)
Theorem C8_MakePingEndpoint_error_is_nil :
  forall (s : Service) (ctx : Context) (w : World),
    match s ctx w with
    | (Ret (p, err), w') =>
        MakePingEndpoint s ctx IPingRequest w
        = (Ret (IPingResponse (mkPingResponse p err), None), w')
    | (Panic r, w') =>
        MakePingEndpoint s ctx IPingRequest w = (Panic r, w')
    end.
Proof.
  intros s ctx w. rewrite MakePingEndpoint_run.
  destruct (s ctx w) as [[[p err]|r] w']; reflexivity.
Qed.

(** The sentinel is never the error result of the base endpoint. *)
Lemma MakePingEndpoint_never_returns_error (s : Service) ctx w resp err w' :
  MakePingEndpoint s ctx IPingRequest w = (Ret (resp, err), w') -> err = None.
Proof.
  rewrite MakePingEndpoint_run.
  destruct (s ctx w) as [[[p e]|r] w1]; intros H; inversion H; reflexivity.
Qed.

(** ** The HTTP transport *)

Lemma err2code_sentinel : err2code (Some ErrRandomFailure) = http.StatusTeapot.
Proof. reflexivity. Qed.

Lemma err2code_other (err : error) :
  err <> Some ErrRandomFailure -> err2code err = http.StatusInternalServerError.
Proof.
  intros H. unfold err2code, error_eqb.
  destruct err as [e|]; [|reflexivity].
  destruct (GoError_eq_dec e ErrRandomFailure) as [->|]; [contradiction|reflexivity].
Qed.

(** C4: [errorEncoder], given a non-nil error, writes the status code
    418, a 4xx code other than 500, when the error is [ErrRandomFailure],
    and 500 for every other error; in both cases it then writes as body
    the object with the one member ["error"], the message of the error. *)
Theorem C4_errorEncoder_status_and_body :
  forall (ctx : Context) (e : GoError) (rw : http.ResponseWriter),
    exists code,
      errorEncoder ctx (Some e) rw =
        (Ret tt,
         (rw ++ [http.CallWriteHeader code;
                 http.CallEncode (json.Obj [("error", errors.Error e)])])%list) /\
      (e = ErrRandomFailure ->
         code = http.StatusTeapot /\ 400 <= code < 500 /\
         code <> http.StatusInternalServerError) /\
      (e <> ErrRandomFailure -> code = http.StatusInternalServerError /\ code = 500).
Proof.
  intros ctx e rw.
  exists (err2code (Some e)).
  split; [|split].
  - unfold errorEncoder, http.Encode, http.WriteHeader.
    rewrite <- app_assoc. reflexivity.
  - intros ->. rewrite err2code_sentinel.
    unfold http.StatusTeapot, http.StatusInternalServerError. lia.
  - intros Hne. rewrite err2code_other by congruence. split; reflexivity.
Qed.

Lemma C4_errorEncoder_status_and_body_witness :
  exists code,
    errorEncoder Background (Some ErrRandomFailure) http.NewRecorder =
      (Ret tt,
       [http.CallWriteHeader code;
        http.CallEncode (json.Obj [("error", "random failure")])]) /\
    code = 418.
Proof.
  destruct (C4_errorEncoder_status_and_body Background ErrRandomFailure http.NewRecorder)
    as (code & Hrun & Hsentinel & _).
  exists code. split; [exact Hrun|].
  destruct (Hsentinel eq_refl) as [Hcode _]. exact Hcode.
Defined.

(** An error that only shares the sentinel's message, such as one decoded
    from the wire, is answered with 500. *)
Lemma err2code_same_message_other_object :
  err2code (Some (mkError 5%positive "random failure")) = 500.
Proof. reflexivity. Qed.

(** C9: on a response whose status code is not 200, the decoder of the
    HTTP client returns a nil value and a new error whose message is the
    response's [Status]; the response comes back as it went in, its body
    unread, and the result is the same whatever the body holds and
    whatever the JSON decoder would make of it. *)
Theorem C9_decodeHTTPPingResponse_non_200 :
  forall (json_Decode : http.Reader -> M ((PingResponse * error) * http.Reader))
         (ctx : Context) (r : http.Response) (w : World),
    http.StatusCode r <> http.StatusOK ->
    decodeHTTPPingResponse json_Decode ctx r w =
      (Ret ((INil, Some (mkError (heap w) (http.Status r))), r),
       set_heap (Pos.succ (heap w)) w) /\
    forall json_Decode' body',
      decodeHTTPPingResponse json_Decode' ctx (http.with_Body r body') w =
        (Ret ((INil, Some (mkError (heap w) (http.Status r))), http.with_Body r body'),
         set_heap (Pos.succ (heap w)) w).
Proof.
  intros jd ctx r w Hcode.
  assert (Hb : forall r', http.StatusCode r' = http.StatusCode r ->
                 negb (http.StatusCode r' =? http.StatusOK) = true).
  { intros r' ->. apply negb_true_iff, Z.eqb_neq. exact Hcode. }
  split.
  - unfold decodeHTTPPingResponse. rewrite Hb by reflexivity. reflexivity.
  - intros jd' body'. unfold decodeHTTPPingResponse.
    rewrite Hb by reflexivity. reflexivity.
Qed.

Lemma C9_decodeHTTPPingResponse_non_200_witness :
  let teapot :=
    http.mkResponse "418 I'm a teapot" 418
      (http.mkReader "{'error':'random failure'}" 0) in
  let json_Decode := fun b : http.Reader => ret ((mkPingResponse "" None, None), b) in
  decodeHTTPPingResponse json_Decode Background teapot Examples.init =
    (Ret ((INil, Some (mkError 5%positive "418 I'm a teapot")), teapot),
     set_heap 6%positive Examples.init).
Proof.
  intros teapot json_Decode.
  apply (C9_decodeHTTPPingResponse_non_200 json_Decode Background teapot Examples.init).
  vm_compute. discriminate.
Defined.

(** [errorDecoder], the one function that reads the message out of an
    error body, is not called by the decoder above. *)
Lemma errorDecoder_reads_body
    (json_Decode : http.Reader -> M ((errorWrapper * error) * http.Reader))
    (r : http.Response) (w w' : World) (message : string) (body : http.Reader) :
  json_Decode (http.Body r) w = (Ret ((mkErrorWrapper message, None), body), w') ->
  errorDecoder json_Decode r w =
    (Ret (Some (mkError (heap w') message), http.with_Body r body),
     set_heap (Pos.succ (heap w')) w').
Proof.
  intros H. unfold errorDecoder, bind. rewrite H. reflexivity.
Qed.

(** ** The Thrift transport *)

(** The server encodes the domain error of the response with [err2str]. *)
Lemma thriftServer_Ping_encodes (endpoints : EndpointSet) ctx w resp w' :
  PingEndpoint endpoints ctx IPingRequest w = (Ret (IPingResponse resp, None), w') ->
  thriftServer_Ping endpoints ctx w =
    (Ret (Some (mkThriftReply (P resp) (err2str (Err resp))), None), w').
Proof.
  intros H. unfold thriftServer_Ping, bind. rewrite H. reflexivity.
Qed.

(** The client puts the transport error, here nil, into the response and
    never looks at the error string of the reply. *)
Lemma MakeThriftPingEndpoint_ignores_reply_Err
    (client : HackerServiceClient) ctx w reply w' :
  client ctx w = (Ret (Some reply, None), w') ->
  MakeThriftPingEndpoint client ctx IPingRequest w =
    (Ret (IPingResponse (mkPingResponse (Value reply) None), None), w').
Proof.
  intros H. unfold MakeThriftPingEndpoint, bind. rewrite H. reflexivity.
Qed.

(** C3: the Thrift server encodes a nil domain error as the empty string
    and a non-nil one as its message, but the Thrift client does not
    decode that field.  A client talking to a server whose service fails
    with [ErrRandomFailure] gets the reply with [Err = "random failure"]
    and returns a [PingResponse] whose [Err] is nil, so the client
    library reports an empty payload and no error; the gRPC decoder turns
    the same string into a non-nil error. *)
Theorem C3_thrift_client_drops_reply_error :
  let server := thriftServer_Ping (mkSet (MakePingEndpoint Examples.failing)) in
  server Background Examples.init =
    (Ret (Some (mkThriftReply "" "random failure"), None), Examples.init) /\
  MakeThriftPingEndpoint server Background IPingRequest Examples.init =
    (Ret (IPingResponse (mkPingResponse "" None), None), Examples.init) /\
  fst (Ping (NewThriftClient 6 (60 * time.Second) server) Background Examples.init) =
    Ret ("", None) /\
  decodeGRPCPingResponse Background
      (IPbPingReply (mkPbReply "" "random failure")) Examples.init =
    (Ret (IPingResponse
            (mkPingResponse "" (Some (mkError 5%positive "random failure"))), None),
     set_heap 6%positive Examples.init).
Proof.
  repeat split.
Qed.

(** ** Frame properties of the middlewares *)

Lemma set_breaker_same (w : World) : set_breaker (breaker w) w = w.
Proof. destruct w; reflexivity. Qed.

(** Admission changes the breaker and nothing else. *)
Lemma beforeRequest_frame (cb : gobreaker.Breaker) (w : World) :
  exists adm b, gobreaker.beforeRequest cb w = (Ret adm, set_breaker b w).
Proof.
  unfold gobreaker.beforeRequest, gobreaker.currentState. run.
  destruct (cb_state (breaker w)) eqn:Hs; simpl.
  - do 2 eexists; reflexivity.
  - destruct (cb_requests (breaker w)); simpl.
    + do 2 eexists; reflexivity.
    + exists (Some gobreaker.ErrTooManyRequests), (breaker w).
      rewrite set_breaker_same. reflexivity.
  - destruct (cb_expiry (breaker w) <? now w); simpl.
    + do 2 eexists; reflexivity.
    + exists (Some gobreaker.ErrOpenState), (breaker w).
      rewrite set_breaker_same. reflexivity.
Qed.

(** So does completion. *)
Lemma afterRequest_frame (cb : gobreaker.Breaker) (success : bool) (w : World) :
  exists b, gobreaker.afterRequest cb success w = (Ret tt, set_breaker b w).
Proof.
  unfold gobreaker.afterRequest, gobreaker.currentState. run.
  destruct (cb_state (breaker w)) eqn:Hs; simpl;
    try destruct (cb_expiry (breaker w) <? now w); simpl;
    destruct success; simpl; eexists; reflexivity.
Qed.

Lemma Allow_frame (c : rate.Config) (w : World) :
  exists ok l, rate.Allow c w = (Ret ok, set_limiter l w).
Proof.
  unfold rate.Allow.
  destruct (rate.Every c <=? rate.refill c (limiter w) (now w));
    do 2 eexists; reflexivity.
Qed.

Lemma Finish_frame (tracer : opentracing.Tracer) (s : Span) (w : World) :
  exists w', opentracing.Finish tracer s w = (Ret tt, w') /\
             ep_log w' = ep_log w /\ ep_hist w' = ep_hist w /\
             breaker w' = breaker w /\ calls w' = calls w.
Proof.
  destruct tracer; simpl; run; eexists; repeat split.
Qed.

Lemma silent_limiter (c : rate.Config) (ep : Endpoint) :
  silent ep -> silent (ratelimit.NewErroringLimiter c ep).
Proof.
  intros H ctx request w. unfold ratelimit.NewErroringLimiter, bind.
  destruct (Allow_frame c w) as (ok & l & ->).
  destruct ok; [apply (H ctx request (set_limiter l w))|split; reflexivity].
Qed.

Lemma returns_limiter (c : rate.Config) (ep : Endpoint) request :
  returns ep request -> returns (ratelimit.NewErroringLimiter c ep) request.
Proof.
  intros H ctx w. unfold ratelimit.NewErroringLimiter, bind.
  destruct (Allow_frame c w) as (ok & l & ->).
  destruct ok; [apply H|eexists; reflexivity].
Qed.

Lemma silent_breaker (cb : gobreaker.Breaker) (ep : Endpoint) :
  silent ep -> silent (circuitbreaker.Gobreaker cb ep).
Proof.
  intros H ctx request w.
  unfold circuitbreaker.Gobreaker, gobreaker.Execute, bind.
  destruct (beforeRequest_frame cb w) as (adm & b & ->).
  destruct adm as [e|]; [split; reflexivity|].
  destruct (H ctx request (set_breaker b w)) as [Hl Hh].
  destruct (ep ctx request (set_breaker b w)) as [[[result err]|r] w']; simpl in *.
  - destruct (afterRequest_frame cb (is_nil err) w') as (b' & ->). simpl. tauto.
  - destruct (afterRequest_frame cb false w') as (b' & ->). simpl. tauto.
Qed.

Lemma returns_breaker (cb : gobreaker.Breaker) (ep : Endpoint) request :
  returns ep request -> returns (circuitbreaker.Gobreaker cb ep) request.
Proof.
  intros H ctx w.
  unfold circuitbreaker.Gobreaker, gobreaker.Execute, bind.
  destruct (beforeRequest_frame cb w) as (adm & b & ->).
  destruct adm as [e|]; [eexists; reflexivity|].
  destruct (H ctx (set_breaker b w)) as [r Hr].
  destruct (ep ctx request (set_breaker b w)) as [[[result err]|r'] w']; simpl in *.
  - destruct (afterRequest_frame cb (is_nil err) w') as (b' & ->). eexists; reflexivity.
  - discriminate.
Qed.

Lemma silent_traced (tracer : opentracing.Tracer) (op : string) (ep : Endpoint) :
  silent ep -> silent (opentracing.traced tracer op ep).
Proof.
  intros H ctx request w. unfold opentracing.traced, bind.
  destruct (H (mkContext (Some op)) request w) as [Hl Hh].
  destruct (ep (mkContext (Some op)) request w) as [[[response err]|r] w']; simpl in *.
  - destruct (Finish_frame tracer (mkSpan op err) w') as (w2 & -> & Hl2 & Hh2 & _).
    simpl. split; congruence.
  - destruct (Finish_frame tracer (mkSpan op None) w') as (w2 & -> & Hl2 & Hh2 & _).
    simpl. split; congruence.
Qed.

Lemma returns_traced (tracer : opentracing.Tracer) (op : string) (ep : Endpoint) request :
  returns ep request -> returns (opentracing.traced tracer op ep) request.
Proof.
  intros H ctx w. unfold opentracing.traced, bind.
  destruct (H (mkContext (Some op)) w) as [r Hr].
  destruct (ep (mkContext (Some op)) request w) as [[[response err]|r'] w']; simpl in *.
  - destruct (Finish_frame tracer (mkSpan op err) w') as (w2 & -> & _).
    eexists; reflexivity.
  - discriminate.
Qed.

Lemma silent_MakePingEndpoint (s : Service) :
  svc_silent s -> silent (MakePingEndpoint s).
Proof.
  intros H ctx request w. unfold MakePingEndpoint.
  destruct request; try (split; reflexivity).
  unfold bind. destruct (H ctx w) as [Hl Hh].
  destruct (s ctx w) as [[[p err]|r] w']; simpl in *; tauto.
Qed.

Lemma returns_MakePingEndpoint (s : Service) :
  svc_returns s -> returns (MakePingEndpoint s) IPingRequest.
Proof.
  intros H ctx w. rewrite MakePingEndpoint_run.
  destruct (H ctx w) as [r Hr].
  destruct (s ctx w) as [[[p err]|r'] w']; simpl in *;
    [eexists; reflexivity|discriminate].
Qed.

Create HintDb frames.
#[local] Hint Resolve silent_limiter returns_limiter silent_breaker returns_breaker
  silent_traced returns_traced silent_MakePingEndpoint returns_MakePingEndpoint : frames.

(** ** The server-side stack *)

(** What the two outermost layers add to a call the inner stack returns
    from. *)
Lemma logged_and_observed_once
    (logger : log.Logger) (duration : metrics.Histogram) (inner : Endpoint)
    (ctx : Context) (request : iface) (w : World) :
  silent inner -> returns inner request ->
  exists resp err w',
    InstrumentingMiddleware duration (LoggingMiddleware logger inner) ctx request w
      = (Ret (resp, err), w') /\
    ep_log w' = (ep_log w ++ [mkLog logger err])%list /\
    ep_hist w' = (ep_hist w ++ [mkObs duration (now w' - now w)])%list.
Proof.
  intros Hs Hr.
  destruct (Hr ctx w) as [[resp err] Hret].
  destruct (Hs ctx request w) as [Hl Hh].
  unfold InstrumentingMiddleware, LoggingMiddleware. run.
  destruct (inner ctx request w) as [o w1]. simpl in *. subst o.
  eexists resp, err, _. split; [reflexivity|]. simpl.
  rewrite Hl, Hh. split; reflexivity.
Qed.

(** C6: for a service that returns and has no access to the endpoint
    logger and the histogram, every call to the Ping endpoint of
    [hackerendpoint.New] with a [PingRequest] returns, and adds exactly
    one record, carrying the call's error, to the endpoint log and exactly
    one observation to the duration histogram, in every state of the
    limiter and the breaker and whatever the service answers. *)
Theorem C6_server_logs_and_observes_once :
  forall (N : nat) (defaultTimeout : Z) (svc : Service)
         (logger : log.Logger) (duration : metrics.Histogram)
         (trace : opentracing.Tracer) (ctx : Context) (w : World),
    svc_silent svc -> svc_returns svc ->
    exists resp err w',
      PingEndpoint (New N defaultTimeout svc logger duration trace) ctx IPingRequest w
        = (Ret (resp, err), w') /\
      ep_log w' = (ep_log w ++ [mkLog (log.With logger "method" "Ping") err])%list /\
      ep_hist w' =
        (ep_hist w ++ [mkObs (metrics.With duration "method" "Ping") (now w' - now w)])%list.
Proof.
  intros N dt svc logger duration trace ctx w Hs Hr.
  unfold New, PingEndpoint, opentracing.TraceServer.
  apply logged_and_observed_once; auto 6 with frames.
Qed.

Lemma failing_silent : svc_silent Examples.failing.
Proof. intros ctx w. split; reflexivity. Qed.

Lemma failing_returns : svc_returns Examples.failing.
Proof. intros ctx w. eexists. reflexivity. Qed.

Lemma C6_server_logs_and_observes_once_witness :
  exists resp err w',
    PingEndpoint (New 6 (60 * time.Second) Examples.failing [] [] opentracing.Recorder)
      Background IPingRequest Examples.tripped
      = (Ret (resp, err), w') /\
    ep_log w' = [mkLog [("method", "Ping")] err] /\
    ep_hist w' = [mkObs [("method", "Ping")] (now w' - 0)].
Proof.
  apply (C6_server_logs_and_observes_once 6 (60 * time.Second) Examples.failing
           [] [] opentracing.Recorder Background Examples.tripped).
  - exact failing_silent.
  - exact failing_returns.
Defined.

(** The three ways a call is turned away or fails, each leaving one record
    and one observation: the breaker is open; the bucket is empty; the
    service fails. *)
Example server_rejected_by_breaker :
  let ep := PingEndpoint (New 6 (60 * time.Second) Examples.healthy [] [] opentracing.Recorder) in
  let '(o, w') := ep Background IPingRequest Examples.tripped in
  o = Ret (INil, Some gobreaker.ErrOpenState) /\
  ep_log w' = [mkLog [("method", "Ping")] (Some gobreaker.ErrOpenState)] /\
  ep_hist w' = [mkObs [("method", "Ping")] 0].
Proof. vm_compute. repeat split. Qed.

Example server_rejected_by_limiter :
  let ep := PingEndpoint (New 6 (60 * time.Second) Examples.healthy [] [] opentracing.Recorder) in
  let '(o, w') := ep Background IPingRequest (set_limiter (mkLimiter 0 0) Examples.init) in
  o = Ret (INil, Some ratelimit.ErrLimited) /\
  ep_log w' = [mkLog [("method", "Ping")] (Some ratelimit.ErrLimited)] /\
  ep_hist w' = [mkObs [("method", "Ping")] 0].
Proof. vm_compute. repeat split. Qed.

Example server_service_fails :
  let ep := PingEndpoint (New 6 (60 * time.Second) Examples.failing [] [] opentracing.Recorder) in
  let '(o, w') := ep Background IPingRequest Examples.init in
  o = Ret (IPingResponse (mkPingResponse "" (Some ErrRandomFailure)), None) /\
  ep_log w' = [mkLog [("method", "Ping")] None] /\
  ep_hist w' = [mkObs [("method", "Ping")] 0].
Proof. vm_compute. repeat split. Qed.

(** ** The circuit breaker *)

Section Breaker.
Variable cb : gobreaker.Breaker.

Lemma beforeRequest_closed (w : World) :
  cb_state (breaker w) = StateClosed ->
  gobreaker.beforeRequest cb w
  = (Ret None, set_breaker (gobreaker.onRequest (breaker w)) w).
Proof.
  intros Hs. unfold gobreaker.beforeRequest, gobreaker.currentState. run.
  rewrite Hs. reflexivity.
Qed.

Lemma beforeRequest_open (w : World) :
  cb_state (breaker w) = StateOpen ->
  now w <= cb_expiry (breaker w) ->
  gobreaker.beforeRequest cb w = (Ret (Some gobreaker.ErrOpenState), w).
Proof.
  intros Hs Ht. unfold gobreaker.beforeRequest, gobreaker.currentState. run.
  rewrite Hs. destruct (Z.ltb_spec (cb_expiry (breaker w)) (now w)); [lia|].
  reflexivity.
Qed.

Lemma beforeRequest_expired (w : World) :
  cb_state (breaker w) = StateOpen ->
  cb_expiry (breaker w) < now w ->
  gobreaker.beforeRequest cb w
  = (Ret None, set_breaker (mkBreaker StateHalfOpen 0 1 0) w).
Proof.
  intros Hs Ht. unfold gobreaker.beforeRequest, gobreaker.currentState. run.
  rewrite Hs. destruct (Z.ltb_spec (cb_expiry (breaker w)) (now w)); [|lia].
  reflexivity.
Qed.

Lemma beforeRequest_trial_in_flight (w : World) :
  cb_state (breaker w) = StateHalfOpen ->
  (1 <= cb_requests (breaker w))%nat ->
  gobreaker.beforeRequest cb w = (Ret (Some gobreaker.ErrTooManyRequests), w).
Proof.
  intros Hs Hr. unfold gobreaker.beforeRequest, gobreaker.currentState. run.
  rewrite Hs. simpl.
  destruct (cb_requests (breaker w)); [lia|reflexivity].
Qed.

Lemma afterRequest_closed (success : bool) (w : World) :
  cb_state (breaker w) = StateClosed ->
  gobreaker.afterRequest cb success w
  = (Ret tt,
     set_breaker
       (if success then gobreaker.onSuccess StateClosed (breaker w)
        else gobreaker.onFailure cb StateClosed (now w) (breaker w)) w).
Proof.
  intros Hs. unfold gobreaker.afterRequest, gobreaker.currentState. run.
  rewrite Hs. destruct success; reflexivity.
Qed.

Lemma afterRequest_half_open (success : bool) (w : World) :
  cb_state (breaker w) = StateHalfOpen ->
  gobreaker.afterRequest cb success w
  = (Ret tt,
     set_breaker
       (if success then gobreaker.closed
        else mkBreaker StateOpen 0 0 (now w + gobreaker.timeout cb)) w).
Proof.
  intros Hs. unfold gobreaker.afterRequest, gobreaker.currentState. run.
  rewrite Hs. destruct success; reflexivity.
Qed.

(** A call through a closed breaker: the wrapped endpoint runs, and its
    result is the call's. *)
Lemma Gobreaker_closed (next : Endpoint) ctx request (w : World) resp err w2 :
  keeps_breaker next ->
  cb_state (breaker w) = StateClosed ->
  next ctx request (set_breaker (gobreaker.onRequest (breaker w)) w)
    = (Ret (resp, err), w2) ->
  circuitbreaker.Gobreaker cb next ctx request w
  = (Ret (resp, err),
     set_breaker
       (if is_nil err
        then gobreaker.onSuccess StateClosed (gobreaker.onRequest (breaker w))
        else gobreaker.onFailure cb StateClosed (now w2) (gobreaker.onRequest (breaker w)))
       w2).
Proof.
  intros Hk Hs Hnext.
  pose proof (Hk ctx request (set_breaker (gobreaker.onRequest (breaker w)) w)) as Hb.
  rewrite Hnext in Hb. simpl in Hb.
  unfold circuitbreaker.Gobreaker, gobreaker.Execute, bind at 1.
  rewrite beforeRequest_closed by assumption. rewrite Hnext.
  unfold bind. rewrite afterRequest_closed by (rewrite Hb; exact Hs).
  rewrite Hb. reflexivity.
Qed.

(** The trial call through a breaker whose open period is over. *)
Lemma Gobreaker_trial (next : Endpoint) ctx request (w : World) resp err w2 :
  keeps_breaker next ->
  cb_state (breaker w) = StateOpen ->
  cb_expiry (breaker w) < now w ->
  next ctx request (set_breaker (mkBreaker StateHalfOpen 0 1 0) w)
    = (Ret (resp, err), w2) ->
  circuitbreaker.Gobreaker cb next ctx request w
  = (Ret (resp, err),
     set_breaker
       (if is_nil err then gobreaker.closed
        else mkBreaker StateOpen 0 0 (now w2 + gobreaker.timeout cb))
       w2).
Proof.
  intros Hk Hs Ht Hnext.
  pose proof (Hk ctx request (set_breaker (mkBreaker StateHalfOpen 0 1 0) w)) as Hb.
  rewrite Hnext in Hb. simpl in Hb.
  unfold circuitbreaker.Gobreaker, gobreaker.Execute, bind at 1.
  rewrite beforeRequest_expired by assumption. rewrite Hnext.
  unfold bind. rewrite afterRequest_half_open by (rewrite Hb; reflexivity).
  reflexivity.
Qed.

(** A call turned away by an open breaker changes nothing at all. *)
Lemma Gobreaker_open (next : Endpoint) ctx request (w : World) :
  cb_state (breaker w) = StateOpen ->
  now w <= cb_expiry (breaker w) ->
  circuitbreaker.Gobreaker cb next ctx request w
  = (Ret (INil, Some gobreaker.ErrOpenState), w).
Proof.
  intros Hs Ht.
  unfold circuitbreaker.Gobreaker, gobreaker.Execute, bind.
  rewrite beforeRequest_open by assumption. reflexivity.
Qed.

Lemma beforeRequest_half_open_free (w : World) :
  cb_state (breaker w) = StateHalfOpen ->
  cb_requests (breaker w) = 0%nat ->
  gobreaker.beforeRequest cb w
  = (Ret None, set_breaker (gobreaker.onRequest (breaker w)) w).
Proof.
  intros Hs Hr. unfold gobreaker.beforeRequest, gobreaker.currentState. run.
  rewrite Hs. simpl. rewrite Hr. reflexivity.
Qed.

(** A call that arrives while the trial is in flight changes nothing. *)
Lemma Gobreaker_busy (next : Endpoint) ctx request (w : World) :
  cb_state (breaker w) = StateHalfOpen ->
  (1 <= cb_requests (breaker w))%nat ->
  circuitbreaker.Gobreaker cb next ctx request w
  = (Ret (INil, Some gobreaker.ErrTooManyRequests), w).
Proof.
  intros Hs Hr.
  unfold circuitbreaker.Gobreaker, gobreaker.Execute, bind.
  rewrite beforeRequest_trial_in_flight by assumption. reflexivity.
Qed.

(** A call the breaker lets through and the wrapped endpoint panics in. *)
Lemma Gobreaker_panic (next : Endpoint) ctx request (w w1 w2 : World) r :
  gobreaker.beforeRequest cb w = (Ret None, w1) ->
  next ctx request w1 = (Panic r, w2) ->
  fst (circuitbreaker.Gobreaker cb next ctx request w) = Panic r.
Proof.
  intros Hb Hn.
  unfold circuitbreaker.Gobreaker, gobreaker.Execute, bind at 1.
  rewrite Hb, Hn. unfold bind.
  destruct (afterRequest_frame cb false w2) as (b & ->). reflexivity.
Qed.

(** The trial of a half-open breaker that has admitted no call yet. *)
Lemma Gobreaker_free_trial (next : Endpoint) ctx request (w : World) resp err w2 :
  keeps_breaker next ->
  cb_state (breaker w) = StateHalfOpen ->
  cb_requests (breaker w) = 0%nat ->
  next ctx request (set_breaker (gobreaker.onRequest (breaker w)) w)
    = (Ret (resp, err), w2) ->
  circuitbreaker.Gobreaker cb next ctx request w
  = (Ret (resp, err),
     set_breaker
       (if is_nil err then gobreaker.closed
        else mkBreaker StateOpen 0 0 (now w2 + gobreaker.timeout cb))
       w2).
Proof.
  intros Hk Hs Hr Hnext.
  pose proof (Hk ctx request (set_breaker (gobreaker.onRequest (breaker w)) w)) as Hb.
  rewrite Hnext in Hb. simpl in Hb.
  unfold circuitbreaker.Gobreaker, gobreaker.Execute, bind at 1.
  rewrite beforeRequest_half_open_free by assumption. rewrite Hnext.
  unfold bind. rewrite afterRequest_half_open by (rewrite Hb; exact Hs).
  reflexivity.
Qed.

(** The breaker of the model meets the specification, around every
    endpoint that leaves the breaker alone. *)
Lemma Gobreaker_three_state_breaker (next : Endpoint) :
  keeps_breaker next ->
  three_state_breaker (gobreaker.threshold cb) (gobreaker.timeout cb)
    next (circuitbreaker.Gobreaker cb next).
Proof.
  intros Hk ctx request w. cbv zeta.
  destruct (cb_state (breaker w)) eqn:Hs.
  - assert (Hadm : gobreaker.onRequest (breaker w)
                   = mkBreaker StateClosed (cb_failures (breaker w))
                       (S (cb_requests (breaker w))) (cb_expiry (breaker w)))
      by (unfold gobreaker.onRequest; rewrite Hs; reflexivity).
    rewrite <- Hadm.
    destruct (next ctx request (set_breaker (gobreaker.onRequest (breaker w)) w))
      as [[[resp [e|]]|r] w2] eqn:Hn.
    + rewrite (Gobreaker_closed next ctx request w resp (Some e) w2 Hk Hs Hn).
      rewrite Hadm. reflexivity.
    + rewrite (Gobreaker_closed next ctx request w resp None w2 Hk Hs Hn).
      rewrite Hadm. reflexivity.
    + eapply Gobreaker_panic; [apply beforeRequest_closed; exact Hs|exact Hn].
  - destruct (cb_requests (breaker w)) as [|m] eqn:Hr.
    + assert (Hadm : gobreaker.onRequest (breaker w)
                     = mkBreaker StateHalfOpen (cb_failures (breaker w)) 1
                         (cb_expiry (breaker w)))
        by (unfold gobreaker.onRequest; rewrite Hs, Hr; reflexivity).
      unfold trial_call. rewrite <- Hadm.
      destruct (next ctx request (set_breaker (gobreaker.onRequest (breaker w)) w))
        as [[[resp [e|]]|r] w2] eqn:Hn.
      * apply (Gobreaker_free_trial next ctx request w resp (Some e) w2 Hk Hs Hr Hn).
      * apply (Gobreaker_free_trial next ctx request w resp None w2 Hk Hs Hr Hn).
      * eapply Gobreaker_panic;
          [apply beforeRequest_half_open_free; assumption|exact Hn].
    + apply Gobreaker_busy; [exact Hs|rewrite Hr; lia].
  - destruct (Z.ltb_spec (cb_expiry (breaker w)) (now w)) as [Ht|Ht].
    + unfold trial_call.
      destruct (next ctx request (set_breaker (mkBreaker StateHalfOpen 0 1 0) w))
        as [[[resp [e|]]|r] w2] eqn:Hn.
      * apply (Gobreaker_trial next ctx request w resp (Some e) w2 Hk Hs Ht Hn).
      * apply (Gobreaker_trial next ctx request w resp None w2 Hk Hs Ht Hn).
      * eapply Gobreaker_panic; [apply beforeRequest_expired; assumption|exact Hn].
    + apply Gobreaker_open; assumption.
Qed.

End Breaker.

Lemma all_fail_prefix (ep : Endpoint) ctx request (w : World) :
  forall n j, (j <= n)%nat ->
    all_fail n ep ctx request w = true -> all_fail j ep ctx request w = true.
Proof.
  induction n as [|n IH]; intros j Hj Hall.
  - replace j with 0%nat by lia. reflexivity.
  - destruct (Nat.eq_dec j (S n)) as [->|Hne]; [exact Hall|].
    simpl in Hall. apply andb_true_iff in Hall. destruct Hall as [Hall _].
    apply IH; [lia|exact Hall].
Qed.

(** Runs of failed calls through an endpoint that meets the
    specification. *)
Section Runs.
Variable N : nat.
Variable T : Z.
Variables wrapped guarded : Endpoint.
Hypothesis Hspec : three_state_breaker N T wrapped guarded.

Lemma failed_call_while_closed ctx request (w : World) :
  cb_state (breaker w) = StateClosed ->
  failed (fst (guarded ctx request w)) = true ->
  let w' := call guarded ctx request w in
  breaker w' =
    if (N <=? S (cb_failures (breaker w)))%nat
    then mkBreaker StateOpen 0 0 (now w' + T)
    else mkBreaker StateClosed (S (cb_failures (breaker w)))
           (S (cb_requests (breaker w))) (cb_expiry (breaker w)).
Proof.
  intros Hs Hf. pose proof (Hspec ctx request w) as H. cbv zeta in H.
  rewrite Hs in H. unfold call.
  destruct (wrapped ctx request _) as [[[resp [e|]]|r] w2];
    rewrite H in *; simpl in *; try discriminate.
  destruct (N <=? S (cb_failures (breaker w)))%nat; reflexivity.
Qed.

Lemma failures_are_counted ctx request :
  forall (n : nat) (w : World),
    cb_state (breaker w) = StateClosed ->
    (cb_failures (breaker w) + n < N)%nat ->
    all_fail n guarded ctx request w = true ->
    let wn := calls_n n guarded ctx request w in
    cb_state (breaker wn) = StateClosed /\
    cb_failures (breaker wn) = (cb_failures (breaker w) + n)%nat.
Proof.
  induction n as [|n IH]; intros w Hs Hlt Hall; simpl.
  - split; [exact Hs|lia].
  - simpl in Hall. apply andb_true_iff in Hall. destruct Hall as [Hall Hlast].
    destruct (IH w Hs ltac:(lia) Hall) as [Hs' Hk].
    rewrite (failed_call_while_closed ctx request _ Hs' Hlast).
    destruct (Nat.leb_spec N (S (cb_failures (breaker (calls_n n guarded ctx request w)))));
      [lia|].
    simpl. split; [reflexivity|lia].
Qed.

Lemma failures_open_the_breaker : opens_after_failures N T guarded.
Proof.
  intros ctx request w n Hs Hpos Hsum Hall.
  destruct n as [|m]; [lia|].
  simpl in Hall. apply andb_true_iff in Hall. destruct Hall as [Hall Hlast].
  split.
  - intros j Hj.
    apply failures_are_counted;
      [exact Hs|lia|apply (all_fail_prefix guarded ctx request w m); [lia|exact Hall]].
  - destruct (failures_are_counted ctx request m w Hs ltac:(lia) Hall) as [Hs' Hk].
    cbv zeta. simpl calls_n.
    set (wm := calls_n m guarded ctx request w) in *.
    assert (Hopen : breaker (call guarded ctx request wm)
                    = mkBreaker StateOpen 0 0 (now (call guarded ctx request wm) + T)).
    { rewrite (failed_call_while_closed ctx request wm Hs' Hlast).
      destruct (Nat.leb_spec N (S (cb_failures (breaker wm)))); [reflexivity|lia]. }
    split; [exact Hopen|].
    intros HT. pose proof (Hspec ctx request (call guarded ctx request wm)) as H.
    cbv zeta in H. rewrite Hopen in H. simpl in H.
    destruct (Z.ltb_spec (now (call guarded ctx request wm) + T)
                (now (call guarded ctx request wm))); [lia|exact H].
Qed.

End Runs.

Lemma keeps_breaker_limiter (c : rate.Config) (ep : Endpoint) :
  keeps_breaker ep -> keeps_breaker (ratelimit.NewErroringLimiter c ep).
Proof.
  intros H ctx request w. unfold ratelimit.NewErroringLimiter, bind.
  destruct (Allow_frame c w) as (ok & l & ->).
  destruct ok; [apply (H ctx request (set_limiter l w))|reflexivity].
Qed.

Lemma keeps_breaker_MakePingEndpoint (s : Service) :
  (forall ctx w, breaker (snd (s ctx w)) = breaker w) ->
  keeps_breaker (MakePingEndpoint s).
Proof.
  intros H ctx request w. unfold MakePingEndpoint.
  destruct request; try reflexivity.
  unfold bind. specialize (H ctx w).
  destruct (s ctx w) as [[[p err]|r] w']; exact H.
Qed.

Lemma keeps_breaker_MakeThriftPingEndpoint (client : HackerServiceClient) :
  (forall ctx w, breaker (snd (client ctx w)) = breaker w) ->
  keeps_breaker (MakeThriftPingEndpoint client).
Proof.
  intros H ctx request w. unfold MakeThriftPingEndpoint.
  destruct request; try reflexivity.
  unfold bind. specialize (H ctx w).
  destruct (client ctx w) as [[[reply err]|r] w']; simpl in *; [|exact H].
  destruct (error_eqb err (Some ErrRandomFailure)); [exact H|].
  destruct reply; exact H.
Qed.

(** C7: the breaker that [NewThriftClient] and [New] put around an
    endpoint is the three-state machine of the specification, with [N]
    the failure threshold.  The Ping endpoint of the Thrift client is the
    breaker, with a timeout of ten seconds, around the rate-limited
    transport call; the Ping endpoint of the server is tracing, logging
    and instrumenting around the breaker, with the default timeout,
    around the rate-limited base endpoint.  For both: while the breaker
    is closed a call runs the wrapped endpoint and returns its result, a
    success clears the count of consecutive failures and a failure adds
    to it; the failure that brings the count to [N] opens the breaker
    until the timeout after that call; while it is open a call fails with
    [ErrOpenState] and changes nothing, so the wrapped endpoint is not
    invoked; once the timeout is over the next call is the trial, a call
    that finds the trial in flight fails and changes nothing, a
    successful trial closes the breaker and a failed one opens it again.
    The client and the service are assumed not to reach the breaker. *)
Theorem C7_circuit_breaker :
  forall (N : nat) (defaultTimeout : Z)
         (client : HackerServiceClient) (svc : Service)
         (logger : log.Logger) (duration : metrics.Histogram)
         (trace : opentracing.Tracer),
    (forall ctx w, breaker (snd (client ctx w)) = breaker w) ->
    (forall ctx w, breaker (snd (svc ctx w)) = breaker w) ->
    let limit := ratelimit.NewErroringLimiter (rate.NewLimiter time.Second 100) in
    let thrift := PingEndpoint (NewThriftClient N defaultTimeout client) in
    (three_state_breaker N (10 * time.Second)
       (limit (MakeThriftPingEndpoint client)) thrift /\
     opens_after_failures N (10 * time.Second) thrift) /\
    exists guarded,
      PingEndpoint (New N defaultTimeout svc logger duration trace) =
        chain [opentracing.TraceServer trace "Ping";
               LoggingMiddleware (log.With logger "method" "Ping");
               InstrumentingMiddleware (metrics.With duration "method" "Ping")]
          guarded /\
      three_state_breaker N defaultTimeout (limit (MakePingEndpoint svc)) guarded /\
      opens_after_failures N defaultTimeout guarded.
Proof.
  intros N dt client svc logger duration trace Hclient Hsvc limit thrift.
  assert (Hthrift : three_state_breaker N (10 * time.Second)
                      (limit (MakeThriftPingEndpoint client)) thrift).
  { apply (Gobreaker_three_state_breaker (gobreaker.mkConfig N (10 * time.Second))).
    apply keeps_breaker_limiter, keeps_breaker_MakeThriftPingEndpoint, Hclient. }
  assert (Hserver : three_state_breaker N dt (limit (MakePingEndpoint svc))
                      (circuitbreaker.Gobreaker (gobreaker.mkConfig N dt)
                         (limit (MakePingEndpoint svc)))).
  { apply (Gobreaker_three_state_breaker (gobreaker.mkConfig N dt)).
    apply keeps_breaker_limiter, keeps_breaker_MakePingEndpoint, Hsvc. }
  split.
  - split; [exact Hthrift|].
    eapply failures_open_the_breaker; exact Hthrift.
  - exists (circuitbreaker.Gobreaker (gobreaker.mkConfig N dt)
              (limit (MakePingEndpoint svc))).
    split; [reflexivity|]. split; [exact Hserver|].
    eapply failures_open_the_breaker; exact Hserver.
Qed.

Lemma refusing_keeps_breaker :
  forall ctx w, breaker (snd (Examples.refusing ctx w)) = breaker w.
Proof. intros ctx w. reflexivity. Qed.

Lemma failing_keeps_breaker :
  forall ctx w, breaker (snd (Examples.failing ctx w)) = breaker w.
Proof. intros ctx w. reflexivity. Qed.

Lemma C7_circuit_breaker_witness :
  let thrift := PingEndpoint (NewThriftClient 3 (60 * time.Second) Examples.refusing) in
  let w3 := calls_n 3 thrift Background IPingRequest Examples.init in
  breaker w3 = mkBreaker StateOpen 0 0 (now w3 + 10 * time.Second) /\
  calls w3 = 3%nat /\
  thrift Background IPingRequest w3 = (Ret (INil, Some gobreaker.ErrOpenState), w3).
Proof.
  intros thrift w3.
  destruct (C7_circuit_breaker 3 (60 * time.Second) Examples.refusing Examples.failing
              [] [] opentracing.GlobalTracer refusing_keeps_breaker failing_keeps_breaker)
    as [[_ Hopens] _].
  destruct (Hopens Background IPingRequest Examples.init 3%nat) as (_ & Hopen & Hnext).
  - reflexivity.
  - lia.
  - reflexivity.
  - vm_compute. reflexivity.
  - split; [exact Hopen|]. split; [vm_compute; reflexivity|].
    apply Hnext. unfold time.Second. lia.
Defined.

(** ** The client-side stacks *)

Lemma silent_MakeThriftPingEndpoint (client : HackerServiceClient) :
  (forall ctx, quiet_run (client ctx)) -> silent (MakeThriftPingEndpoint client).
Proof.
  intros H ctx request w. unfold MakeThriftPingEndpoint.
  destruct request; try (split; reflexivity).
  unfold bind. destruct (H ctx w) as [Hl Hh].
  destruct (client ctx w) as [[[reply err]|r] w']; simpl in *; [|tauto].
  destruct (error_eqb err (Some ErrRandomFailure)); [tauto|].
  destruct reply; tauto.
Qed.

(** C5, amended: on the HTTP and the gRPC client the chain
    around the transport-call endpoint is, innermost to outermost,
    tracing, rate limiter, circuit breaker; on the Thrift client it is
    rate limiter, circuit breaker, and no tracing.  None of the three
    applies logging or instrumentation: a call writes to the endpoint log
    and to the histogram only if the transport underneath does. *)
Theorem C5_client_chains :
  forall (json_Decode : http.Reader -> M ((PingResponse * error) * http.Reader))
         (url_Parse : string -> URL * error)
         (httpNew : string -> URL -> EncodeRequestFunc -> DecodeResponseFunc ->
                    opentracing.Tracer -> log.Logger -> Endpoint)
         (grpcNew : string -> string -> string -> CodecFunc -> CodecFunc ->
                    opentracing.Tracer -> log.Logger -> Endpoint)
         (N : nat) (defaultTimeout : Z) (instance conn : string)
         (client : HackerServiceClient)
         (tracer : opentracing.Tracer) (logger : log.Logger),
    (forall m u e d t l, silent (httpNew m u e d t l)) ->
    (forall a b c e d t l, silent (grpcNew a b c e d t l)) ->
    (forall ctx, quiet_run (client ctx)) ->
    let limit := ratelimit.NewErroringLimiter (rate.NewLimiter time.Second 100) in
    let break_after seconds :=
      circuitbreaker.Gobreaker
        (gobreaker.NewCircuitBreaker N defaultTimeout
           (gobreaker.mkSettings "Ping" (seconds * time.Second))) in
    let trace := opentracing.TraceClient tracer "Ping" in
    let address :=
      if negb (String.prefix "http" instance) then "http://" ++ instance else instance in
    match url_Parse address with
    | (u, None) =>
        exists s,
          NewHTTPClient json_Decode url_Parse httpNew N defaultTimeout
            instance tracer logger = (Some s, None) /\
          PingEndpoint s =
            chain [trace; limit; break_after 30]
              (httpNew "POST" (copyURL u "/ping") encodeHTTPGenericRequest
                 (decodeHTTPPingResponse json_Decode) tracer logger) /\
          silent (PingEndpoint s)
    | (_, Some e) =>
        NewHTTPClient json_Decode url_Parse httpNew N defaultTimeout
          instance tracer logger = (None, Some e)
    end /\
    (PingEndpoint (NewGRPCClient grpcNew N defaultTimeout conn tracer logger) =
       chain [trace; limit; break_after 30]
         (grpcNew conn "pb.Hacker" "Ping" encodeGRPCPingRequest decodeGRPCPingResponse
            tracer logger) /\
     silent (PingEndpoint (NewGRPCClient grpcNew N defaultTimeout conn tracer logger))) /\
    (PingEndpoint (NewThriftClient N defaultTimeout client) =
       chain [limit; break_after 10] (MakeThriftPingEndpoint client) /\
     silent (PingEndpoint (NewThriftClient N defaultTimeout client))).
Proof.
  intros jd url_Parse httpNew grpcNew N dt instance conn client tracer logger
         Hhttp Hgrpc Hclient limit break_after trace address.
  split; [|split].
  - unfold NewHTTPClient. fold address.
    destruct (url_Parse address) as [u [e|]]; [reflexivity|].
    eexists. split; [reflexivity|]. split; [reflexivity|].
    simpl. unfold opentracing.TraceClient. auto with frames.
  - split; [reflexivity|].
    unfold NewGRPCClient, PingEndpoint, opentracing.TraceClient. auto with frames.
  - split; [reflexivity|].
    unfold NewThriftClient, PingEndpoint.
    auto using silent_MakeThriftPingEndpoint with frames.
Qed.

Lemma stub_silent : silent Examples.stub.
Proof. intros ctx request w. split; reflexivity. Qed.

Lemma C5_client_chains_witness :
  let grpcNew :=
    fun (_ _ _ : string) (_ _ : CodecFunc) (_ : opentracing.Tracer) (_ : log.Logger) =>
      Examples.stub in
  let limit := ratelimit.NewErroringLimiter (rate.NewLimiter time.Second 100) in
  let guard :=
    circuitbreaker.Gobreaker
      (gobreaker.NewCircuitBreaker 6 (60 * time.Second)
         (gobreaker.mkSettings "Ping" (30 * time.Second))) in
  let trace := opentracing.TraceClient opentracing.Recorder "Ping" in
  PingEndpoint (NewGRPCClient grpcNew 6 (60 * time.Second) "conn" opentracing.Recorder []) =
    chain [trace; limit; guard] Examples.stub.
Proof.
  intros grpcNew limit guard trace.
  pose (json_Decode := fun b : http.Reader => ret ((mkPingResponse "" None, @None GoError), b)).
  pose (url_Parse := fun a : string => (mkURL a "", @None GoError)).
  pose (httpNew :=
          fun (_ : string) (_ : URL) (_ : EncodeRequestFunc) (_ : DecodeResponseFunc)
              (_ : opentracing.Tracer) (_ : log.Logger) => Examples.stub).
  pose (client := thriftServer_Ping (mkSet (MakePingEndpoint Examples.healthy))).
  assert (Hclient : forall ctx, quiet_run (client ctx)).
  { intros ctx w. split; reflexivity. }
  destruct (C5_client_chains json_Decode url_Parse httpNew grpcNew 6 (60 * time.Second)
              "localhost:8081" "conn" client opentracing.Recorder []
              (fun _ _ _ _ _ _ => stub_silent)
              (fun _ _ _ _ _ _ _ => stub_silent)
              Hclient) as (_ & (H & _) & _).
  exact H.
Defined.

(** C5, in the order the specification gives (rate limiter, circuit
    breaker, tracing), does not hold: with tracing outermost a call turned
    away by the open breaker would still leave a span, and the gRPC client
    leaves none; and the Thrift client, with a tracing layer, would leave
    a span for a call it lets through, and leaves none. *)
Lemma C5_specified_order_counterexample :
  let grpcNew :=
    fun (_ _ _ : string) (_ _ : CodecFunc) (_ : opentracing.Tracer) (_ : log.Logger) =>
      Examples.stub in
  let limit := ratelimit.NewErroringLimiter (rate.NewLimiter time.Second 100) in
  let guard seconds :=
    circuitbreaker.Gobreaker
      (gobreaker.NewCircuitBreaker 6 (60 * time.Second)
         (gobreaker.mkSettings "Ping" (seconds * time.Second))) in
  let trace := opentracing.TraceClient opentracing.Recorder "Ping" in
  let client := thriftServer_Ping (mkSet (MakePingEndpoint Examples.healthy)) in
  let grpc :=
    PingEndpoint (NewGRPCClient grpcNew 6 (60 * time.Second) "conn" opentracing.Recorder []) in
  let thrift := PingEndpoint (NewThriftClient 6 (60 * time.Second) client) in
  let grpc_specified := chain [limit; guard 30; trace] Examples.stub in
  let thrift_specified := chain [limit; guard 10; trace] (MakeThriftPingEndpoint client) in
  spans (snd (grpc Background IPingRequest Examples.tripped)) = [] /\
  spans (snd (grpc_specified Background IPingRequest Examples.tripped))
    = [mkSpan "Ping" (Some gobreaker.ErrOpenState)] /\
  grpc <> grpc_specified /\
  spans (snd (thrift Background IPingRequest Examples.init)) = [] /\
  spans (snd (thrift_specified Background IPingRequest Examples.init))
    = [mkSpan "Ping" None] /\
  thrift <> thrift_specified.
Proof.
  intros grpcNew limit guard trace client grpc thrift grpc_specified thrift_specified.
  assert (H1 : spans (snd (grpc Background IPingRequest Examples.tripped)) = [])
    by (vm_compute; reflexivity).
  assert (H2 : spans (snd (grpc_specified Background IPingRequest Examples.tripped))
               = [mkSpan "Ping" (Some gobreaker.ErrOpenState)])
    by (vm_compute; reflexivity).
  assert (H3 : spans (snd (thrift Background IPingRequest Examples.init)) = [])
    by (vm_compute; reflexivity).
  assert (H4 : spans (snd (thrift_specified Background IPingRequest Examples.init))
               = [mkSpan "Ping" None])
    by (vm_compute; reflexivity).
  repeat split; try assumption.
  - intros Heq. rewrite Heq, H2 in H1. discriminate.
  - intros Heq. rewrite Heq, H4 in H3. discriminate.
Qed.

(** * Further properties of the code *)

(** ** Service, endpoint and back *)

(** X1: [Set.Ping] undoes [MakePingEndpoint]: the service obtained from
    the base endpoint of a service behaves as that service, in result,
    state and panics. *)
Theorem X1_Ping_of_MakePingEndpoint :
  forall (s : Service) (ctx : Context) (w : World),
    Ping (mkSet (MakePingEndpoint s)) ctx w = s ctx w.
Proof.
  intros s ctx w. unfold Ping, PingEndpoint, bind.
  rewrite MakePingEndpoint_run.
  destruct (s ctx w) as [[[p err]|r] w']; reflexivity.
Qed.

(** X2: on a request of any other shape than [PingRequest] the base
    endpoint panics before it calls the service: the state is as it
    was. *)
Theorem X2_MakePingEndpoint_wrong_request :
  forall (s : Service) (ctx : Context) (request : iface) (w : World),
    request <> IPingRequest ->
    exists r, MakePingEndpoint s ctx request w = (Panic r, w).
Proof.
  intros s ctx request w Hne. unfold MakePingEndpoint.
  destruct request; try (eexists; reflexivity). contradiction.
Qed.

Lemma X2_MakePingEndpoint_wrong_request_witness :
  exists r,
    MakePingEndpoint Examples.healthy Background INil Examples.init
    = (Panic r, Examples.init).
Proof.
  apply (X2_MakePingEndpoint_wrong_request Examples.healthy Background INil Examples.init).
  discriminate.
Defined.

(** ** The error strings on the wire *)

(** X3: string to error and back is exact: for every string [s],
    including the empty one, [err2str(str2err(s))] is [s]. *)
Theorem X3_err2str_of_str2err :
  forall (s : string) (w : World),
    exists err w', str2err s w = (Ret err, w') /\ err2str err = s.
Proof.
  intros s w. unfold str2err.
  destruct (String.eqb_spec s "") as [->|Hne].
  - exists None, w. split; reflexivity.
  - do 2 eexists. split; reflexivity.
Qed.

(** X4: an error decoded from a string is never the object
    [ErrRandomFailure], whatever the string, once the package is
    initialised; [err2code] therefore answers it with 500, also when the
    string is "random failure". *)
Theorem X4_decoded_error_is_not_the_sentinel :
  forall (s : string) (w : World) (err : error) (w' : World),
    (err_addr ErrRandomFailure < heap w)%positive ->
    str2err s w = (Ret err, w') ->
    err <> Some ErrRandomFailure /\
    err2code err = http.StatusInternalServerError.
Proof.
  intros s w err w' Hheap Hrun.
  assert (Hne : err <> Some ErrRandomFailure).
  { unfold str2err in Hrun.
    destruct (String.eqb s ""); inversion Hrun; subst; [discriminate|].
    intros Heq. inversion Heq as [Haddr]. rewrite Haddr in Hheap.
    simpl in Hheap. lia. }
  split; [exact Hne|]. apply err2code_other. exact Hne.
Qed.

Lemma X4_decoded_error_is_not_the_sentinel_witness :
  Some (mkError 5%positive "random failure") <> Some ErrRandomFailure /\
  err2code (Some (mkError 5%positive "random failure")) = 500.
Proof.
  apply (X4_decoded_error_is_not_the_sentinel "random failure" Examples.init
           (Some (mkError 5%positive "random failure"))
           (set_heap 6%positive Examples.init)).
  - vm_compute. reflexivity.
  - reflexivity.
Defined.

(** ** The gRPC codec *)

(** X5: what the gRPC server encodes the gRPC client decodes: the payload
    comes back as it was; a nil error comes back nil, an error with a
    non-empty message as a new error with that message, and an error with
    an empty message as nil.  Neither function fails or panics on a
    [PingResponse]. *)
Theorem X5_grpc_response_round_trip :
  forall (ctx : Context) (resp : PingResponse) (w : World),
    (reply <- encodeGRPCPingResponse ctx (IPingResponse resp) ;;
     decodeGRPCPingResponse ctx (fst reply)) w
    = match Err resp with
      | None => (Ret (IPingResponse resp, None), w)
      | Some e =>
          if String.eqb (errors.Error e) ""
          then (Ret (IPingResponse (mkPingResponse (P resp) None), None), w)
          else (Ret (IPingResponse
                       (mkPingResponse (P resp)
                          (Some (mkError (heap w) (errors.Error e)))), None),
                set_heap (Pos.succ (heap w)) w)
      end.
Proof.
  intros ctx [p [e|]] w; unfold encodeGRPCPingResponse, decodeGRPCPingResponse,
    str2err; run.
  - destruct (String.eqb (errors.Error e) ""); reflexivity.
  - reflexivity.
Qed.

(** X6: a Ping over gRPC, with the wire left out: the client encodes the
    request, the server decodes it, runs the base endpoint and encodes its
    response, the client decodes the reply.  Whatever the service returns,
    the client gets its payload and an error with the same text
    ([err2str] agrees), and a nil error result. *)
Theorem X6_grpc_ping_end_to_end :
  forall (s : Service) (ctx : Context) (w w1 : World) (p : string) (err : error),
    s ctx w = (Ret (p, err), w1) ->
    exists err' w',
      (a <- encodeGRPCPingRequest ctx IPingRequest ;;
       b <- decodeGRPCPingRequest ctx (fst a) ;;
       c <- MakePingEndpoint s ctx (fst b) ;;
       d <- encodeGRPCPingResponse ctx (fst c) ;;
       decodeGRPCPingResponse ctx (fst d)) w
      = (Ret (IPingResponse (mkPingResponse p err'), None), w') /\
      err2str err' = err2str err.
Proof.
  intros s ctx w w1 p err Hs.
  unfold encodeGRPCPingRequest, decodeGRPCPingRequest, MakePingEndpoint,
    encodeGRPCPingResponse, decodeGRPCPingResponse. run.
  rewrite Hs. simpl.
  destruct err as [e|]; simpl; unfold str2err, err2str, errors.Error.
  - destruct (String.eqb_spec (err_msg e) "") as [Hm|Hm]; run.
    + exists None, w1. split; [reflexivity|]. rewrite Hm. reflexivity.
    + do 2 eexists. split; reflexivity.
  - exists None, w1. split; reflexivity.
Qed.

Lemma X6_grpc_ping_end_to_end_witness :
  exists err' w',
    (a <- encodeGRPCPingRequest Background IPingRequest ;;
     b <- decodeGRPCPingRequest Background (fst a) ;;
     c <- MakePingEndpoint Examples.failing Background (fst b) ;;
     d <- encodeGRPCPingResponse Background (fst c) ;;
     decodeGRPCPingResponse Background (fst d)) Examples.init
    = (Ret (IPingResponse (mkPingResponse "" err'), None), w') /\
    err2str err' = "random failure".
Proof.
  apply (X6_grpc_ping_end_to_end Examples.failing Background Examples.init Examples.init
           "" (Some ErrRandomFailure)).
  reflexivity.
Defined.

(** X7: each of the four gRPC codec functions panics on a value that is
    not of the type it asserts, and touches nothing before it does. *)
Theorem X7_grpc_codec_wrong_type :
  forall (ctx : Context) (v : iface) (w : World),
    (v <> IPbPingRequest ->
       exists r, decodeGRPCPingRequest ctx v w = (Panic r, w)) /\
    ((forall reply, v <> IPbPingReply reply) ->
       exists r, decodeGRPCPingResponse ctx v w = (Panic r, w)) /\
    ((forall resp, v <> IPingResponse resp) ->
       exists r, encodeGRPCPingResponse ctx v w = (Panic r, w)) /\
    (v <> IPingRequest ->
       exists r, encodeGRPCPingRequest ctx v w = (Panic r, w)).
Proof.
  intros ctx v w. repeat split; intros H; destruct v;
    try (eexists; reflexivity); exfalso; try (apply H; reflexivity);
    eapply H; reflexivity.
Qed.

Lemma X7_grpc_codec_wrong_type_witness :
  exists r, decodeGRPCPingResponse Background IPingRequest Examples.init
            = (Panic r, Examples.init).
Proof.
  destruct (X7_grpc_codec_wrong_type Background IPingRequest Examples.init)
    as (_ & H & _).
  apply H. intros reply. discriminate.
Defined.

(** ** The Thrift transport, end to end *)

(** X8: a Ping over Thrift, the client calling the server's method: the
    payload of the service arrives, and the error of the service never
    does: whatever the service returns, [PingResponse.Err] is nil at the
    client and so is the error result. *)
Theorem X8_thrift_ping_end_to_end :
  forall (s : Service) (ctx : Context) (w w1 : World) (p : string) (err : error),
    s ctx w = (Ret (p, err), w1) ->
    MakeThriftPingEndpoint (thriftServer_Ping (mkSet (MakePingEndpoint s)))
      ctx IPingRequest w
    = (Ret (IPingResponse (mkPingResponse p None), None), w1).
Proof.
  intros s ctx w w1 p err Hs.
  apply MakeThriftPingEndpoint_ignores_reply_Err with
    (reply := mkThriftReply p (err2str err)).
  apply (thriftServer_Ping_encodes (mkSet (MakePingEndpoint s)) ctx w
           (mkPingResponse p err) w1).
  cbn [PingEndpoint]. rewrite MakePingEndpoint_run, Hs. reflexivity.
Qed.

Lemma X8_thrift_ping_end_to_end_witness :
  MakeThriftPingEndpoint (thriftServer_Ping (mkSet (MakePingEndpoint Examples.healthy)))
    Background IPingRequest Examples.init
  = (Ret (IPingResponse (mkPingResponse "pong" None), None), Examples.init).
Proof.
  apply (X8_thrift_ping_end_to_end Examples.healthy Background Examples.init
           Examples.init "pong" None).
  reflexivity.
Defined.

(** X9: where the Thrift client endpoint puts a transport error that
    comes with a reply: [ErrRandomFailure] becomes the error result of
    the endpoint, with a nil response; every other error goes into
    [PingResponse.Err] and the error result is nil.  Through [Set.Ping]
    the caller gets the error in both cases. *)
Theorem X9_thrift_transport_error :
  forall (client : HackerServiceClient) (ctx : Context) (w w1 : World)
         (reply : thrift_PingReply) (e : GoError),
    client ctx w = (Ret (Some reply, Some e), w1) ->
    MakeThriftPingEndpoint client ctx IPingRequest w
    = (if GoError_eq_dec e ErrRandomFailure
       then (Ret (INil, Some e), w1)
       else (Ret (IPingResponse (mkPingResponse (Value reply) (Some e)), None), w1)) /\
    exists p, Ping (mkSet (MakeThriftPingEndpoint client)) ctx w = (Ret (p, Some e), w1).
Proof.
  intros client ctx w w1 reply e Hc.
  assert (Hrun : MakeThriftPingEndpoint client ctx IPingRequest w
                 = (if GoError_eq_dec e ErrRandomFailure
                    then (Ret (INil, Some e), w1)
                    else (Ret (IPingResponse
                                 (mkPingResponse (Value reply) (Some e)), None), w1))).
  { unfold MakeThriftPingEndpoint, bind. rewrite Hc. unfold error_eqb.
    destruct (GoError_eq_dec e ErrRandomFailure); reflexivity. }
  split; [exact Hrun|].
  unfold Ping, PingEndpoint, bind. rewrite Hrun.
  destruct (GoError_eq_dec e ErrRandomFailure); eexists; reflexivity.
Qed.

Lemma X9_thrift_transport_error_witness :
  let e := mkError 9%positive "deadline exceeded" in
  let client : HackerServiceClient :=
    fun _ => ret (Some (mkThriftReply "" ""), Some e) in
  exists p,
    Ping (mkSet (MakeThriftPingEndpoint client)) Background Examples.init
    = (Ret (p, Some e), Examples.init).
Proof.
  intros e client.
  apply (X9_thrift_transport_error client Background Examples.init Examples.init
           (mkThriftReply "" "") e).
  reflexivity.
Defined.

(** X10: when the generated client returns a nil reply, as it does for a
    call that failed, and the error is not [ErrRandomFailure], the Thrift
    client endpoint dereferences the nil reply and panics instead of
    returning the error. *)
Theorem X10_thrift_nil_reply_panics :
  forall (client : HackerServiceClient) (ctx : Context) (w w1 : World) (err : error),
    client ctx w = (Ret (None, err), w1) ->
    err <> Some ErrRandomFailure ->
    exists r, MakeThriftPingEndpoint client ctx IPingRequest w = (Panic r, w1).
Proof.
  intros client ctx w w1 err Hc Hne.
  unfold MakeThriftPingEndpoint, bind. rewrite Hc.
  replace (error_eqb err (Some ErrRandomFailure)) with false.
  - eexists. reflexivity.
  - unfold error_eqb. destruct err as [e|]; [|reflexivity].
    destruct (GoError_eq_dec e ErrRandomFailure) as [->|]; [contradiction|reflexivity].
Qed.

Lemma X10_thrift_nil_reply_panics_witness :
  let client : HackerServiceClient :=
    fun _ => ret (None, Some (mkError 9%positive "connection refused")) in
  exists r,
    MakeThriftPingEndpoint client Background IPingRequest Examples.init
    = (Panic r, Examples.init).
Proof.
  intros client.
  apply (X10_thrift_nil_reply_panics client Background Examples.init Examples.init
           (Some (mkError 9%positive "connection refused"))).
  - reflexivity.
  - discriminate.
Defined.

(** ** The HTTP server side *)

(** What [encodeHTTPGenericResponse] does with a [PingResponse]. *)
Lemma encodeHTTPGenericResponse_PingResponse
    (Failed_of_other : iface -> option (outcome error))
    (Encode_error : http.ResponseWriter -> iface -> error)
    (ctx : Context) (rw : http.ResponseWriter) (resp : PingResponse) :
  encodeHTTPGenericResponse Failed_of_other Encode_error ctx rw (IPingResponse resp)
  = match Err resp with
    | Some e =>
        (Ret None,
         (rw ++ [http.CallWriteHeader (err2code (Some e));
                 http.CallEncode (json.Obj [("error", errors.Error e)])])%list)
    | None =>
        (Ret (Encode_error
                (rw ++ [http.CallHeaderSet "Content-Type"
                          "application/json; charset=utf-8"])%list
                (IPingResponse resp)),
         (rw ++ [http.CallHeaderSet "Content-Type" "application/json; charset=utf-8";
                 http.CallEncode (json.Obj [("p", P resp)])])%list)
    end.
Proof.
  unfold encodeHTTPGenericResponse, as_Failer, Failed, errorEncoder, http.Encode,
    http.WriteHeader, http.Header_Set.
  destruct resp as [p [e|]]; simpl; rewrite <- app_assoc; reflexivity.
Qed.

(** X11: [encodeHTTPGenericResponse] on a [PingResponse] does not panic.
    When [Err] is non-nil it makes the two calls of [errorEncoder], the
    status of [err2code] and the error body, sets no Content-Type header,
    writes no payload and returns nil.  When [Err] is nil it sets the
    Content-Type header, encodes the object with the payload, in which
    [Err] does not appear, and returns the error of the encoder.  A value
    whose [Failed()] panics makes it panic before anything is written; a
    value that is no [Failer] is encoded like a success, and the error of
    the encoder returned. *)
Theorem X11_encodeHTTPGenericResponse_writes :
  forall (Failed_of_other : iface -> option (outcome error))
         (Encode_error : http.ResponseWriter -> iface -> error)
         (ctx : Context) (rw : http.ResponseWriter),
    let encode := encodeHTTPGenericResponse Failed_of_other Encode_error ctx rw in
    let header :=
      http.CallHeaderSet "Content-Type" "application/json; charset=utf-8" in
    (forall resp,
        encode (IPingResponse resp)
        = match Err resp with
          | Some e =>
              (Ret None,
               (rw ++ [http.CallWriteHeader (err2code (Some e));
                       http.CallEncode (json.Obj [("error", errors.Error e)])])%list)
          | None =>
              (Ret (Encode_error (rw ++ [header])%list (IPingResponse resp)),
               (rw ++ [header; http.CallEncode (json.Obj [("p", P resp)])])%list)
          end) /\
    (forall other r,
        as_Failer Failed_of_other other = Some (Panic r) ->
        encode other = (Panic r, rw)) /\
    (forall other,
        as_Failer Failed_of_other other = None ->
        encode other
        = (Ret (Encode_error (rw ++ [header])%list other),
           (rw ++ [header; http.CallEncode (json.Marshal other)])%list)).
Proof.
  intros Fo Ee ctx rw encode header. unfold encode, header.
  split; [|split].
  - intros resp. apply encodeHTTPGenericResponse_PingResponse.
  - intros other r H. unfold encodeHTTPGenericResponse. rewrite H. reflexivity.
  - intros other H. unfold encodeHTTPGenericResponse. rewrite H.
    unfold http.Encode, http.Header_Set. rewrite <- app_assoc. reflexivity.
Qed.

Lemma X11_encodeHTTPGenericResponse_writes_witness :
  let nil_pointer := IOther 0 in
  let Failed_of_other :=
    fun v : iface =>
      match v with
      | IOther 0 => Some (@Panic error "invalid memory address or nil pointer dereference")
      | _ => None
      end in
  let Encode_error := fun (_ : http.ResponseWriter) (_ : iface) => @None GoError in
  encodeHTTPGenericResponse Failed_of_other Encode_error Background http.NewRecorder
    nil_pointer
  = (Panic "invalid memory address or nil pointer dereference", http.NewRecorder).
Proof.
  intros nil_pointer Failed_of_other Encode_error.
  destruct (X11_encodeHTTPGenericResponse_writes Failed_of_other Encode_error
              Background http.NewRecorder) as (_ & Hpanic & _).
  apply Hpanic. reflexivity.
Defined.

(** X12: the answer of the HTTP server to a Ping, from the service to the
    writer.  The base endpoint returns the response with a nil error
    result.  A success is then written as the Content-Type header and the
    object with the payload, and the error of the encoder is returned; a
    failure with [ErrRandomFailure] is written as status 418 and any other
    failure as status 500, each with the error's message as body, and nil
    is returned.  The status is decided by the error inside the
    response. *)
Theorem X12_http_server_answer :
  forall (Failed_of_other : iface -> option (outcome error))
         (Encode_error : http.ResponseWriter -> iface -> error)
         (s : Service) (ctx : Context) (w w1 : World) (p : string) (err : error)
         (rw : http.ResponseWriter),
    s ctx w = (Ret (p, err), w1) ->
    let header :=
      http.CallHeaderSet "Content-Type" "application/json; charset=utf-8" in
    exists resp,
      MakePingEndpoint s ctx IPingRequest w = (Ret (resp, None), w1) /\
      encodeHTTPGenericResponse Failed_of_other Encode_error ctx rw resp =
        match err with
        | None =>
            (Ret (Encode_error (rw ++ [header])%list resp),
             (rw ++ [header; http.CallEncode (json.Obj [("p", p)])])%list)
        | Some e =>
            (Ret None,
             (rw ++ [http.CallWriteHeader
                       (if GoError_eq_dec e ErrRandomFailure then 418 else 500);
                     http.CallEncode (json.Obj [("error", errors.Error e)])])%list)
        end.
Proof.
  intros Fo Ee s ctx w w1 p err rw Hs header.
  exists (IPingResponse (mkPingResponse p err)).
  split; [rewrite MakePingEndpoint_run, Hs; reflexivity|].
  rewrite encodeHTTPGenericResponse_PingResponse. simpl.
  destruct err as [e|]; [|reflexivity].
  unfold err2code, error_eqb.
  destruct (GoError_eq_dec e ErrRandomFailure); reflexivity.
Qed.

Lemma X12_http_server_answer_witness :
  let Failed_of_other := fun _ : iface => @None (outcome error) in
  let Encode_error := fun (_ : http.ResponseWriter) (_ : iface) => @None GoError in
  exists resp,
    MakePingEndpoint Examples.failing Background IPingRequest Examples.init
      = (Ret (resp, None), Examples.init) /\
    encodeHTTPGenericResponse Failed_of_other Encode_error Background
        http.NewRecorder resp =
      (Ret None,
       [http.CallWriteHeader 418;
        http.CallEncode (json.Obj [("error", "random failure")])]).
Proof.
  intros Failed_of_other Encode_error.
  apply (X12_http_server_answer Failed_of_other Encode_error Examples.failing
           Background Examples.init Examples.init
           "" (Some ErrRandomFailure) http.NewRecorder).
  reflexivity.
Defined.

(** ** The HTTP client side *)

(** X13: [NewHTTPClient] treats an address without the prefix "http" as
    the same address with "http://" in front: the two give the same
    result, service or error. *)
Theorem X13_NewHTTPClient_adds_scheme :
  forall (json_Decode : http.Reader -> M ((PingResponse * error) * http.Reader))
         (url_Parse : string -> URL * error)
         (httpNew : string -> URL -> EncodeRequestFunc -> DecodeResponseFunc ->
                    opentracing.Tracer -> log.Logger -> Endpoint)
         (N : nat) (defaultTimeout : Z) (instance : string)
         (tracer : opentracing.Tracer) (logger : log.Logger),
    String.prefix "http" instance = false ->
    NewHTTPClient json_Decode url_Parse httpNew N defaultTimeout instance tracer logger
    = NewHTTPClient json_Decode url_Parse httpNew N defaultTimeout
        ("http://" ++ instance) tracer logger.
Proof.
  intros jd url_Parse httpNew N dt instance tracer logger Hp.
  unfold NewHTTPClient. rewrite Hp. reflexivity.
Qed.

Lemma X13_NewHTTPClient_adds_scheme_witness :
  let json_Decode := fun b : http.Reader => ret ((mkPingResponse "" None, @None GoError), b) in
  let url_Parse := fun a : string => (mkURL a "", @None GoError) in
  let httpNew :=
    fun (_ : string) (_ : URL) (_ : EncodeRequestFunc) (_ : DecodeResponseFunc)
        (_ : opentracing.Tracer) (_ : log.Logger) => Examples.stub in
  NewHTTPClient json_Decode url_Parse httpNew 6 (60 * time.Second)
    "localhost:8081" opentracing.GlobalTracer []
  = NewHTTPClient json_Decode url_Parse httpNew 6 (60 * time.Second)
      "http://localhost:8081" opentracing.GlobalTracer [].
Proof.
  intros json_Decode url_Parse httpNew.
  apply (X13_NewHTTPClient_adds_scheme json_Decode url_Parse httpNew 6 (60 * time.Second)
           "localhost:8081" opentracing.GlobalTracer []).
  reflexivity.
Defined.

(** X14: what [errorDecoder] returns.  When the decoder of the body
    returns an error, that error is returned as it is; when it returns
    none, a new error whose message is the decoded text, also when that
    text is empty; a panic of the decoder goes on.  So an error that
    [errorDecoder] returns is never nil.  The response comes back with
    the body as the decoder left it and with its status and status code
    unchanged. *)
Theorem X14_errorDecoder_never_nil :
  forall (json_Decode : http.Reader -> M ((errorWrapper * error) * http.Reader))
         (r : http.Response) (w : World),
    match json_Decode (http.Body r) w with
    | (Ret ((wrapper, Some e), body), w1) =>
        errorDecoder json_Decode r w
        = (Ret (Some e,
                http.mkResponse (http.Status r) (http.StatusCode r) body), w1)
    | (Ret ((wrapper, None), body), w1) =>
        errorDecoder json_Decode r w
        = (Ret (Some (mkError (heap w1) (Error wrapper)),
                http.mkResponse (http.Status r) (http.StatusCode r) body),
           set_heap (Pos.succ (heap w1)) w1)
    | (Panic reason, w1) =>
        errorDecoder json_Decode r w = (Panic reason, w1)
    end /\
    forall err r' w',
      errorDecoder json_Decode r w = (Ret (err, r'), w') -> err <> None.
Proof.
  intros jd r w. unfold errorDecoder, bind.
  destruct (jd (http.Body r) w) as [[[[wrapper [e|]] body]|reason] w1]; run;
    (split; [reflexivity|]); intros err r' w' H; inversion H; discriminate.
Qed.

Lemma X14_errorDecoder_never_nil_witness :
  let json_Decode :=
    fun b : http.Reader =>
      ret ((mkErrorWrapper "", @None GoError),
           http.mkReader (http.data b) (String.length (http.data b))) in
  let r :=
    http.mkResponse "500 Internal Server Error" 500 (http.mkReader "{'error':''}" 0) in
  errorDecoder json_Decode r Examples.init
  = (Ret (Some (mkError 5%positive ""),
          http.mkResponse "500 Internal Server Error" 500
            (http.mkReader "{'error':''}" 12)),
     set_heap 6%positive Examples.init) /\
  Some (mkError 5%positive "") <> None.
Proof.
  intros json_Decode r.
  destruct (X14_errorDecoder_never_nil json_Decode r Examples.init) as [Hrun Hnil].
  split; [exact Hrun|].
  exact (Hnil _ _ _ Hrun).
Defined.

(** ** The service middlewares *)

Section ServiceMiddleware.
Import servicemiddleware.
Variable logger : Logger.
Variable pings : Counter.

Lemma LoggingMiddleware_result (next : Service) ctx w :
  answers logger ->
  fst (LoggingMiddleware logger next ctx w) = fst (next ctx w).
Proof.
  intros Hl. unfold LoggingMiddleware, loggingMiddleware_Ping.
  destruct (next ctx w) as [[[p err]|r] w1]; unfold bind.
  - destruct (Hl (ping_keyvals p err) w1) as [w2 ->]. reflexivity.
  - destruct (Hl (ping_keyvals "" None) w1) as [w2 ->]. reflexivity.
Qed.

Lemma InstrumentingMiddleware_result (next : Service) ctx w :
  answers pings ->
  fst (InstrumentingMiddleware pings next ctx w) = fst (next ctx w).
Proof.
  intros Hp. unfold InstrumentingMiddleware, instrumentingMiddleware_Ping, bind.
  destruct (next ctx w) as [[r|r] w1]; [|reflexivity].
  destruct (Hp 1 w1) as [w2 ->]. reflexivity.
Qed.

End ServiceMiddleware.

(** X15: the two service decorators are transparent: with a logger and a
    counter whose methods return, the decorated service returns, or panics
    with, exactly what the inner service does, alone and stacked in either
    order. *)
Theorem X15_service_middleware_transparent :
  forall (logger : servicemiddleware.Logger) (pings : servicemiddleware.Counter)
         (next : Service) (ctx : Context) (w : World),
    servicemiddleware.answers logger ->
    servicemiddleware.answers pings ->
    let logging := servicemiddleware.LoggingMiddleware logger in
    let instrumenting := servicemiddleware.InstrumentingMiddleware pings in
    fst (logging next ctx w) = fst (next ctx w) /\
    fst (instrumenting next ctx w) = fst (next ctx w) /\
    fst (instrumenting (logging next) ctx w) = fst (next ctx w) /\
    fst (logging (instrumenting next) ctx w) = fst (next ctx w).
Proof.
  intros logger pings next ctx w Hl Hp logging instrumenting.
  unfold logging, instrumenting.
  repeat split.
  - apply LoggingMiddleware_result, Hl.
  - apply InstrumentingMiddleware_result, Hp.
  - rewrite InstrumentingMiddleware_result by exact Hp.
    apply LoggingMiddleware_result, Hl.
  - rewrite LoggingMiddleware_result by exact Hl.
    apply InstrumentingMiddleware_result, Hp.
Qed.

Lemma quiet_logger_answers :
  servicemiddleware.answers (fun _ : list servicemiddleware.LogValue => ret tt).
Proof. intros a w. eexists. reflexivity. Qed.

Lemma counting_counter_answers :
  servicemiddleware.answers (fun _ : Z => modify incr_calls).
Proof. intros a w. eexists. reflexivity. Qed.

Lemma X15_service_middleware_transparent_witness :
  let logger := fun _ : list servicemiddleware.LogValue => ret tt in
  let pings := fun _ : Z => modify incr_calls in
  fst (servicemiddleware.InstrumentingMiddleware pings
         (servicemiddleware.LoggingMiddleware logger Examples.failing)
         Background Examples.init)
  = Ret ("", Some ErrRandomFailure).
Proof.
  intros logger pings.
  destruct (X15_service_middleware_transparent logger pings Examples.failing
              Background Examples.init quiet_logger_answers counting_counter_answers)
    as (_ & _ & H & _).
  exact H.
Defined.

(** X16: one call of the service built by [hackerservice.New] is, in this
    order: the call of the basic service; one call of [Log], with the
    method name and the payload and error the basic service has just
    returned; one call of [Add(1)]; the return of that same answer.  When
    [Log] panics, [Add] is not called. *)
Theorem X16_service_New_call :
  forall (Int63 : Z -> Z) (logger : servicemiddleware.Logger)
         (pings : servicemiddleware.Counter) (ctx : Context) (w : World),
    servicemiddleware.New Int63 logger pings ctx w
    = (answer <- basicService_Ping Int63 ctx ;;
       logger (servicemiddleware.ping_keyvals (fst answer) (snd answer)) ;;;
       pings 1 ;;;
       ret answer) w.
Proof.
  intros Int63 logger pings ctx w.
  unfold servicemiddleware.New, servicemiddleware.InstrumentingMiddleware,
    servicemiddleware.instrumentingMiddleware_Ping,
    servicemiddleware.LoggingMiddleware, servicemiddleware.loggingMiddleware_Ping,
    NewBasicService, basicService_Ping.
  run. destruct (Ping_of_draw (Int63 (now w))) as [p err]. simpl.
  destruct (logger (servicemiddleware.ping_keyvals p err) w) as [[[]|r] w1];
    reflexivity.
Qed.

(** X17: when the inner service panics, the logging decorator still logs,
    once, an empty payload and a nil error, and panics on; the
    instrumenting decorator does not count the call. *)
Theorem X17_service_middleware_on_panic :
  forall (logger : servicemiddleware.Logger) (pings : servicemiddleware.Counter)
         (next : Service) (ctx : Context) (w w1 w2 : World) (r : string),
    next ctx w = (Panic r, w1) ->
    logger (servicemiddleware.ping_keyvals "" None) w1 = (Ret tt, w2) ->
    servicemiddleware.LoggingMiddleware logger next ctx w = (Panic r, w2) /\
    servicemiddleware.InstrumentingMiddleware pings next ctx w = (Panic r, w1) /\
    servicemiddleware.InstrumentingMiddleware pings
      (servicemiddleware.LoggingMiddleware logger next) ctx w = (Panic r, w2).
Proof.
  intros logger pings next ctx w w1 w2 r Hn Hl.
  assert (H1 : servicemiddleware.LoggingMiddleware logger next ctx w = (Panic r, w2)).
  { unfold servicemiddleware.LoggingMiddleware, servicemiddleware.loggingMiddleware_Ping.
    rewrite Hn. unfold bind. rewrite Hl. reflexivity. }
  repeat split.
  - exact H1.
  - unfold servicemiddleware.InstrumentingMiddleware,
      servicemiddleware.instrumentingMiddleware_Ping, bind.
    rewrite Hn. reflexivity.
  - unfold servicemiddleware.InstrumentingMiddleware,
      servicemiddleware.instrumentingMiddleware_Ping, bind.
    rewrite H1. reflexivity.
Qed.

Lemma X17_service_middleware_on_panic_witness :
  let logger :=
    fun _ : list servicemiddleware.LogValue => modify (add_log (mkLog [] None)) in
  let pings := fun _ : Z => modify incr_calls in
  let broken : Service := fun _ => panic "boom" in
  servicemiddleware.InstrumentingMiddleware pings
    (servicemiddleware.LoggingMiddleware logger broken) Background Examples.init
  = (Panic "boom", add_log (mkLog [] None) Examples.init).
Proof.
  intros logger pings broken.
  apply (X17_service_middleware_on_panic logger pings broken Background Examples.init
           Examples.init (add_log (mkLog [] None) Examples.init) "boom").
  - reflexivity.
  - reflexivity.
Defined.

(** ** What reaches a client *)

(** X18: no client decoder hands out the object [ErrRandomFailure], once
    the package is initialised.  The HTTP decoder, on a status other than
    200, returns a non-nil error that is a new object; the gRPC decoder
    returns a nil error result and a [PingResponse] with the payload of
    the reply and an [Err] that is nil or a new object. *)
Theorem X18_clients_never_rebuild_the_sentinel :
  forall (json_Decode : http.Reader -> M ((PingResponse * error) * http.Reader))
         (ctx : Context) (w : World),
    (err_addr ErrRandomFailure < heap w)%positive ->
    (forall r v err r' w',
        http.StatusCode r <> http.StatusOK ->
        decodeHTTPPingResponse json_Decode ctx r w = (Ret ((v, err), r'), w') ->
        err <> None /\ err <> Some ErrRandomFailure) /\
    (forall reply v err w',
        decodeGRPCPingResponse ctx (IPbPingReply reply) w = (Ret (v, err), w') ->
        err = None /\
        exists resp,
          v = IPingResponse resp /\ P resp = pb_P reply /\
          Err resp <> Some ErrRandomFailure).
Proof.
  intros jd ctx w Hheap. split.
  - intros r v err r' w' Hcode Hrun.
    unfold decodeHTTPPingResponse in Hrun.
    replace (negb (http.StatusCode r =? http.StatusOK)) with true in Hrun
      by (symmetry; apply negb_true_iff, Z.eqb_neq; exact Hcode).
    run. inversion Hrun; subst. split; [discriminate|].
    intros Heq. inversion Heq as [[Haddr Hmsg]]. rewrite Haddr in Hheap.
    simpl in Hheap. lia.
  - intros reply v err w' Hrun.
    unfold decodeGRPCPingResponse, bind in Hrun.
    destruct (str2err (pb_Err reply) w) as [[e|reason] w1] eqn:Hs; [|discriminate].
    inversion Hrun; subst. split; [reflexivity|].
    eexists. split; [reflexivity|]. split; [reflexivity|]. simpl.
    unfold str2err in Hs.
    destruct (String.eqb (pb_Err reply) ""); inversion Hs; subst; [discriminate|].
    intros Heq. inversion Heq as [Haddr]. rewrite Haddr in Hheap.
    simpl in Hheap. lia.
Qed.

Lemma X18_clients_never_rebuild_the_sentinel_witness :
  exists resp,
    IPingResponse (mkPingResponse "" (Some (mkError 5%positive "random failure")))
      = IPingResponse resp /\
    P resp = "" /\
    Err resp <> Some ErrRandomFailure.
Proof.
  pose (json_Decode := fun b : http.Reader => ret ((mkPingResponse "" None, @None GoError), b)).
  assert (Hheap : (err_addr ErrRandomFailure < heap Examples.init)%positive)
    by (vm_compute; reflexivity).
  destruct (X18_clients_never_rebuild_the_sentinel json_Decode Background Examples.init Hheap)
    as [_ Hgrpc].
  apply (Hgrpc (mkPbReply "" "random failure")
           (IPingResponse (mkPingResponse "" (Some (mkError 5%positive "random failure"))))
           None (set_heap 6%positive Examples.init)).
  reflexivity.
Defined.

(** X19: whatever the random source gives, also outside its range,
    [basicService.Ping] returns, and its answer is either "pong" with a
    nil error or the empty payload with [ErrRandomFailure]: never a
    payload together with an error, never another error. *)
Theorem X19_basicService_Ping_answers :
  forall (Int63 : Z -> Z) (ctx : Context) (w : World),
    exists answer,
      fst (basicService_Ping Int63 ctx w) = Ret answer /\
      (answer = ("pong", None) \/ answer = ("", Some ErrRandomFailure)).
Proof.
  intros Int63 ctx w. eexists. split; [reflexivity|].
  unfold Ping_of_draw.
  destruct (inject_Z (Z.rem (Int63 (now w)) 100) ?= failureRate * 100)%Q; auto.
Qed.
